(** * adbcam: process supervision, stream monitoring and cleanup

    A shallow embedding of [adbcam.py].  The script drives two external
    capture processes, watches their output on reader threads, and tears
    everything down from three triggers (signal handler, [atexit] hook,
    end of [main]).

    Modelling conventions.
    - Text is a [string] of 8-bit characters; Python's [str] methods used by
      the script ([strip], [split], [startswith], [in], [join]) are written
      out in module [Py].
    - The module-level globals of the script, the piece of the file system it
      looks at, the two standard streams and the requests sent to the outside
      world form one record, [world].  Every function of the script is a
      computation in the monad [M], which threads the world and propagates
      Python exceptions and [sys.exit].
    - Whatever the outside world answers (does a command fail, does a child
      exit in time, is a thread still alive) is an explicit argument of the
      function that asks.
    - Reader threads share the world with [main]: a monitor is the function
      [read_stream] over the reads of its stream, and the main loop plays
      the reads that happened between two of its polls.

    Layout: the script ([Py], the world, the monad, [cleanup], the
    monitors, setup, [main]); the vocabulary of the properties; then the
    facts, by component ([PyFacts], [MonitorFacts], [CleanupFacts],
    [SetupFacts], [ExitFacts]), each followed by the properties C1 to C10
    it supports. *)

From Stdlib Require Import List String Ascii Bool Arith ZArith Lia.
From Stdlib Require Import DecimalString.
Import ListNotations.

Local Open Scope string_scope.
Local Open Scope list_scope.

(* ================================================================== *)
(** * Python string primitives                                          *)
(* ================================================================== *)

Module Py.

(** [str.isspace] on one character, for code points below 256. *)
Definition is_space (c : ascii) : bool :=
  let n := nat_of_ascii c in
  (Nat.leb 9 n && Nat.leb n 13) || (Nat.leb 28 n && Nat.leb n 32)
  || Nat.eqb n 133 || Nat.eqb n 160.

(** Truthiness of a [str]: the empty string is false. *)
Definition truthy (s : string) : bool :=
  match s with EmptyString => false | String _ _ => true end.

Fixpoint lstrip (s : string) : string :=
  match s with
  | EmptyString => EmptyString
  | String c s' => if is_space c then lstrip s' else s
  end.

Fixpoint rstrip (s : string) : string :=
  match s with
  | EmptyString => EmptyString
  | String c s' =>
      let r := rstrip s' in
      if is_space c && negb (truthy r) then EmptyString else String c r
  end.

(** [s.strip()] *)
Definition strip (s : string) : string := rstrip (lstrip s).

(** [s.startswith(p)] *)
Fixpoint startswith (p s : string) : bool :=
  match p, s with
  | EmptyString, _ => true
  | String a p', String b s' => Ascii.eqb a b && startswith p' s'
  | String _ _, EmptyString => false
  end.

(** [needle in hay] *)
Fixpoint contains (needle hay : string) : bool :=
  startswith needle hay ||
  match hay with
  | EmptyString => false
  | String _ hay' => contains needle hay'
  end.

(** [s.split(sep)] for a one-character separator: never the empty list. *)
Fixpoint split (sep : ascii) (s : string) : list string :=
  match s with
  | EmptyString => [EmptyString]
  | String c s' =>
      if Ascii.eqb c sep then EmptyString :: split sep s'
      else match split sep s' with
           | [] => [String c EmptyString]
           | f :: fs => String c f :: fs
           end
  end.

(** [sep.join(l)] *)
Definition join (sep : string) (l : list string) : string :=
  String.concat sep l.

(** An f-string: the concatenation of its pieces. *)
Definition fstr (pieces : list string) : string := String.concat EmptyString pieces.

(** [x in l] for a list of strings. *)
Definition mem (x : string) (l : list string) : bool :=
  existsb (String.eqb x) l.

(** [str(n)] for integers. *)
Definition str_Z (z : Z) : string :=
  NilZero.string_of_int (Z.to_int z).

Definition str_nat (n : nat) : string := str_Z (Z.of_nat n).

(** [s * n] *)
Fixpoint repeat_str (s : string) (n : nat) : string :=
  match n with
  | O => EmptyString
  | S k => String.append s (repeat_str s k)
  end.

Definition tab : ascii := ascii_of_nat 9.
Definition newline : ascii := ascii_of_nat 10.
Definition nl : string := String newline EmptyString.

End Py.

(* ================================================================== *)
(** * Configuration constants                                           *)
(* ================================================================== *)

Definition V4L2_DEVICE : string := "/dev/video0".
Definition CARD_LABEL : string := "AdbCam".
Definition DEFAULT_FPS : string := "60".
Definition VIRTUAL_MIC_SOURCE : string := "AdbCam".
Definition PIPE_PATH : string := "/tmp/adbcam_pipe".

(** [MIC_SOURCES], in insertion order. *)
Definition MIC_SOURCES : list (string * (string * string)) :=
  [ ("1", ("mic", "Standard microphone"));
    ("2", ("mic-unprocessed", "Unprocessed (raw) microphone"));
    ("3", ("mic-camcorder", "Microphone tuned for video recording"));
    ("4", ("mic-voice-recognition", "Microphone tuned for voice recognition"));
    ("5", ("mic-voice-communication",
           "Microphone tuned for voice communications (voice calls)")) ].

(* ================================================================== *)
(** * The world: globals, file system, streams, requests               *)
(* ================================================================== *)

(** A [subprocess.Popen] handle and a [threading.Thread], by identity. *)
Definition proc := nat.
Definition thread := nat.

(** Requests the script sends to the operating system, in program order. *)
Inductive effect : Type :=
| PactlUnload (module_id : string)   (* pactl unload-module MODULE_ID *)
| RemovePipe                         (* os.remove(PIPE_PATH) *)
| Pkill                              (* pkill -f scrcpy *)
| Terminate (p : proc)               (* proc.terminate() *)
| Wait (p : proc)                    (* proc.wait(timeout=2) *)
| Kill (p : proc)                    (* proc.kill() *)
| AdbDevices                         (* adb devices *)
| Lsmod                              (* lsmod *)
| Shell (cmd : string)               (* subprocess.run(cmd, shell=True) *)
| Mkfifo                             (* os.mkfifo(PIPE_PATH) *)
| Popen (argv : list string)         (* subprocess.Popen(argv, ...) *)
| StartThread (t : thread)           (* Thread(...).start() *)
| Sleep                              (* time.sleep(...) *)
| ListCameraSizes.                   (* scrcpy --list-camera-sizes *)

(** Python exceptions that can travel through the modelled code. *)
Inductive exn : Type :=
| RuntimeError (msg : string)
| OSError (msg : string)
| FileNotFoundError
| TimeoutExpired
| CalledProcessError (msg : string) (stderr : string)
| IndexError
| ValueError
| EOFError
| KeyboardInterrupt.

(** What the outside world answers during one call of [cleanup]. *)
Record cleanup_env : Type := mkCleanupEnv {
  thread_alive : thread -> bool;       (* thread.is_alive() *)
  unload_error : option string;        (* exception raised by the pactl run *)
  remove_error : option string;        (* exception raised by os.remove *)
  pkill_error : option string;         (* exception raised by the pkill run *)
  terminate_raises : proc -> bool;     (* proc.terminate() raises *)
  wait_timeout : proc -> bool;         (* proc.wait(timeout=2) raises
                                          TimeoutExpired: no exit in time *)
  kill_raises : proc -> bool           (* proc.kill() raises *)
}.

(** What [input()] meets on standard input: a typed line, or a SIGINT or
    SIGTERM delivered while it blocks (the handler then runs [cleanup],
    with the answers it gets). *)
Inductive stdin_event : Type :=
| Typed (line : string)
| Interrupt (e : cleanup_env).

Record world : Type := mkWorld {
  MODULE_ID : option string;          (* None is Python's None *)
  scrcpy_processes : list proc;
  monitoring_threads : list thread;
  device_disconnected : bool;         (* the threading.Event *)
  pipe_exists : bool;                 (* os.path.exists(PIPE_PATH) *)
  stdin : list stdin_event;
  stdout : list string;               (* one entry per print / prompt *)
  effects : list effect
}.

Definition initial_world (keys : list stdin_event) : world :=
  mkWorld None [] [] false false keys [] [].

Definition set_MODULE_ID (v : option string) (w : world) : world :=
  mkWorld v (scrcpy_processes w) (monitoring_threads w)
          (device_disconnected w) (pipe_exists w) (stdin w) (stdout w)
          (effects w).

Definition set_scrcpy_processes (v : list proc) (w : world) : world :=
  mkWorld (MODULE_ID w) v (monitoring_threads w)
          (device_disconnected w) (pipe_exists w) (stdin w) (stdout w)
          (effects w).

Definition set_monitoring_threads (v : list thread) (w : world) : world :=
  mkWorld (MODULE_ID w) (scrcpy_processes w) v
          (device_disconnected w) (pipe_exists w) (stdin w) (stdout w)
          (effects w).

Definition set_device_disconnected (v : bool) (w : world) : world :=
  mkWorld (MODULE_ID w) (scrcpy_processes w) (monitoring_threads w)
          v (pipe_exists w) (stdin w) (stdout w) (effects w).

Definition set_pipe_exists (v : bool) (w : world) : world :=
  mkWorld (MODULE_ID w) (scrcpy_processes w) (monitoring_threads w)
          (device_disconnected w) v (stdin w) (stdout w) (effects w).

Definition set_stdin (v : list stdin_event) (w : world) : world :=
  mkWorld (MODULE_ID w) (scrcpy_processes w) (monitoring_threads w)
          (device_disconnected w) (pipe_exists w) v (stdout w) (effects w).

Definition set_stdout (v : list string) (w : world) : world :=
  mkWorld (MODULE_ID w) (scrcpy_processes w) (monitoring_threads w)
          (device_disconnected w) (pipe_exists w) (stdin w) v (effects w).

Definition set_effects (v : list effect) (w : world) : world :=
  mkWorld (MODULE_ID w) (scrcpy_processes w) (monitoring_threads w)
          (device_disconnected w) (pipe_exists w) (stdin w) (stdout w) v.

(* ================================================================== *)
(** * The monad of the script                                           *)
(* ================================================================== *)

(** How a piece of Python ends: it returns a value, an exception escapes,
    [sys.exit(code)] was called, or it is still blocked when the recorded
    behaviour of the outside world runs out. *)
Inductive outcome (A : Type) : Type :=
| Ret (a : A)
| Raise (x : exn)
| Exit (code : Z)
| Pending.

Arguments Ret {A} a.
Arguments Raise {A} x.
Arguments Exit {A} code.
Arguments Pending {A}.

Definition M (A : Type) : Type := world -> outcome A * world.

Definition ret {A} (a : A) : M A := fun w => (Ret a, w).

Definition bind {A B} (m : M A) (k : A -> M B) : M B :=
  fun w =>
    match m w with
    | (Ret a, w') => k a w'
    | (Raise x, w') => (Raise x, w')
    | (Exit c, w') => (Exit c, w')
    | (Pending, w') => (Pending, w')
    end.

Declare Scope py_scope.
Delimit Scope py_scope with py.
Notation "x <- m ;; k" := (bind m (fun x => k))
  (at level 100, m at next level, right associativity) : py_scope.
Notation "m ;; k" := (bind m (fun _ => k))
  (at level 100, right associativity) : py_scope.
Local Open Scope py_scope.

Definition raise {A} (x : exn) : M A := fun w => (Raise x, w).
Definition sys_exit {A} (code : Z) : M A := fun w => (Exit code, w).
Definition pending {A} : M A := fun w => (Pending, w).

(** [print(s)] *)
Definition print (s : string) : M unit :=
  fun w => (Ret tt, set_stdout (stdout w ++ [s]) w).

(** Record a request to the operating system. *)
Definition emit (e : effect) : M unit :=
  fun w => (Ret tt, set_effects (effects w ++ [e]) w).

Definition get {A} (f : world -> A) : M A := fun w => (Ret (f w), w).
Definition modify (f : world -> world) : M unit := fun w => (Ret tt, f w).

(** [try: body / except ...]: [handler x] is [None] when no clause matches
    the exception [x], which then keeps travelling. *)
Definition try_catch {A} (body : M A) (handler : exn -> option (M A)) : M A :=
  fun w =>
    match body w with
    | (Raise x, w') =>
        match handler x with
        | Some h => h w'
        | None => (Raise x, w')
        end
    | r => r
    end.

(** [try: body / except Exception as e: handler(e)].  [sys.exit] raises
    [SystemExit], which is not an [Exception] and passes through; so does
    [KeyboardInterrupt]. *)
Definition try_except_Exception {A} (body : M A) (handler : exn -> M A) : M A :=
  fun w =>
    match body w with
    | (Raise KeyboardInterrupt, w') => (Raise KeyboardInterrupt, w')
    | (Raise x, w') => handler x w'
    | r => r
    end.

(** [try: body / except KeyboardInterrupt: handler].  The script replaces
    the default SIGINT handler at import time, so an interrupt runs
    [signal_handler] instead of raising [KeyboardInterrupt]; the clauses
    are kept where the source has them. *)
Definition try_except_KeyboardInterrupt {A} (body : M A) (handler : M A) : M A :=
  fun w =>
    match body w with
    | (Raise KeyboardInterrupt, w') => handler w'
    | r => r
    end.

(** [try: body / except: handler] (a bare except catches everything that is
    raised, [SystemExit] included). *)
Definition try_except_all {A} (body : M A) (handler : M A) : M A :=
  fun w =>
    match body w with
    | (Raise _, w') => handler w'
    | (Exit _, w') => handler w'
    | r => r
    end.

(** [for x in l: body(x)] *)
Fixpoint for_each {A} (l : list A) (body : A -> M unit) : M unit :=
  match l with
  | [] => ret tt
  | x :: l' => body x ;; for_each l' body
  end.

(** The text of an exception, as [f"{e}"] prints it. *)
Definition exn_text (x : exn) : string :=
  match x with
  | RuntimeError m => m
  | OSError m => m
  | FileNotFoundError => "No such file or directory"
  | TimeoutExpired => "timed out"
  | CalledProcessError m _ => m
  | IndexError => "list index out of range"
  | ValueError => "invalid literal"
  | EOFError => "EOF when reading a line"
  | KeyboardInterrupt => EmptyString
  end.

(* ================================================================== *)
(** * cleanup and the signal handler                                    *)
(* ================================================================== *)

(** An external call inside [try/except Exception as e]: the request is
    sent; when the call raises, [on_error] runs with the exception text. *)
Definition guarded_call (req : effect) (error : option string)
    (on_success : M unit) (on_error : string -> M unit) : M unit :=
  try_except_Exception
    (emit req ;;
     match error with
     | Some msg => raise (OSError msg)
     | None => on_success
     end)
    (fun x => on_error (exn_text x)).

(** The last loop of [cleanup]: [for proc in scrcpy_processes], a graceful
    request and a bounded wait, and a kill when either raises.  Both
    handlers are bare [except:] clauses; the inner one is [pass]. *)
Definition terminate_one (e : cleanup_env) (p : proc) : M unit :=
  try_except_all
    (emit (Terminate p) ;;
     (if terminate_raises e p then raise (OSError "terminate") else ret tt) ;;
     emit (Wait p) ;;
     (if wait_timeout e p then raise TimeoutExpired else ret tt))
    (try_except_all
       (emit (Kill p) ;;
        (if kill_raises e p then raise (OSError "kill") else ret tt))
       (ret tt)).

Definition terminate_tracked (e : cleanup_env) : M unit :=
  procs <- get scrcpy_processes ;;
  for_each procs (terminate_one e).

(** [thread.daemon = True].  The setter of [threading.Thread.daemon] raises
    [RuntimeError] once the thread has been started, and every thread in
    [monitoring_threads] was started before it was appended. *)
Definition set_daemon (t : thread) : M unit :=
  raise (RuntimeError "cannot set daemon status of active thread").

Definition cleanup (e : cleanup_env) : M unit :=
  print "[*] Cleaning up..." ;;
  (* Stop monitoring threads *)
  threads <- get monitoring_threads ;;
  for_each threads
    (fun t => if thread_alive e t then set_daemon t else ret tt) ;;
  (* Unload PulseAudio module *)
  mid <- get MODULE_ID ;;
  (match mid with
   | Some m =>
       if Py.truthy m then
         guarded_call (PactlUnload m) (unload_error e) (ret tt)
           (fun msg => print (Py.fstr ["[!] Error unloading module: "; msg]))
       else ret tt
   | None => ret tt
   end) ;;
  (* Remove pipe *)
  there <- get pipe_exists ;;
  (if there then
     guarded_call RemovePipe (remove_error e)
       (modify (set_pipe_exists false))
       (fun msg => print (Py.fstr ["[!] Error removing pipe: "; msg]))
   else ret tt) ;;
  (* Kill scrcpy processes *)
  guarded_call Pkill (pkill_error e) (ret tt)
    (fun msg => print (Py.fstr ["[!] Error killing scrcpy processes: "; msg])) ;;
  (* Terminate any tracked processes *)
  terminate_tracked e.

Definition signal_handler {A} (e : cleanup_env) : M A :=
  cleanup e ;;
  sys_exit 0.

(** [input(prompt)]: the prompt is written, then the next event of standard
    input decides.  At end of input Python raises [EOFError]. *)
Definition input (prompt : string) : M string :=
  print prompt ;;
  keys <- get stdin ;;
  match keys with
  | [] => raise EOFError
  | Typed line :: rest => modify (set_stdin rest) ;; ret line
  | Interrupt e :: rest => modify (set_stdin rest) ;; signal_handler e
  end.

(** [while True: body], where every turn of the loop reads standard input:
    [body] answers [Some a] at a [break] or [return], [None] to go round
    again.  The number of turns is bounded by the events left to read. *)
Fixpoint loop_turns {A} (turns : nat) (body : M (option A)) : M A :=
  match turns with
  | O => pending
  | S n =>
      r <- body ;;
      match r with
      | Some a => ret a
      | None => loop_turns n body
      end
  end.

Definition while_True {A} (body : M (option A)) : M A :=
  keys <- get stdin ;;
  loop_turns (S (List.length keys)) body.

(* ================================================================== *)
(** * Stream monitors                                                   *)
(* ================================================================== *)

(** The four categories a line of diagnostic output can fall into. *)
Inductive category : Type :=
| Disconnect
| FatalError
| Warning
| Info.

Definition category_eqb (a b : category) : bool :=
  match a, b with
  | Disconnect, Disconnect | FatalError, FatalError
  | Warning, Warning | Info, Info => true
  | _, _ => false
  end.

(** What one [stream.readline()] does: it returns a line (with its
    terminator), or raises.  A stream is the list of what its successive
    reads do; after the list is used up [readline] returns [''], and so
    does it at a an empty [ReadLine]. *)
Inductive read_event : Type :=
| ReadLine (line : string)
| ReadError (msg : string).

Definition keywords : list string :=
  ["ERROR:"; "FATAL:"; "Failed"; "Error"; "Cannot"].

(** How the body of the loop leaves: on to the next line, or [return]. *)
Inductive control : Type :=
| Continue
| Return.

(** The body of the [for] loop of [read_stream] on a stripped, non-empty
    line.  The category is a ghost result naming the branch taken. *)
Definition handle_line (process_name stream_name line_str : string)
    : M (category * control) :=
  (* Check for device disconnection *)
  if Py.contains "Device disconnected" line_str
     && Py.contains "WARN:" line_str then
    print (Py.fstr ["[!] "; process_name; ": Device disconnected detected!"]) ;;
    modify (set_device_disconnected true) ;;
    ret (Disconnect, Return)
  (* Check for ADB device error *)
  else if Py.contains "Could not find any ADB device" line_str then
    print (Py.fstr ["[!] "; process_name; ": No ADB device found!"]) ;;
    modify (set_device_disconnected true) ;;
    ret (Disconnect, Return)
  (* Show errors and important warnings *)
  else if existsb (fun keyword => Py.contains keyword line_str) keywords then
    print (Py.fstr ["[!] "; process_name; " ("; stream_name; "): "; line_str]) ;;
    ret (FatalError, Continue)
  else if Py.contains "WARN:" line_str
          && negb (Py.contains "Device disconnected" line_str) then
    print (Py.fstr ["[W] "; process_name; " ("; stream_name; "): "; line_str]) ;;
    ret (Warning, Continue)
  else
    ret (Info, Continue).

(** [read_stream(stream, stream_name)] inside
    [monitor_process_output(proc, process_name)].  It returns [None]; the
    list it returns here is the ghost trace of categories, one for each line
    that reached the classification. *)
Fixpoint read_stream (process_name stream_name : string)
    (stream : list read_event) : M (list category) :=
  match stream with
  | [] => ret []
  | ReadError msg :: _ =>
      print (Py.fstr ["[!] Error monitoring "; process_name; " ";
                      stream_name; ": "; msg]) ;;
      ret []
  | ReadLine line :: rest =>
      if negb (Py.truthy line) then ret []
      else
        let line_str := Py.strip line in
        if negb (Py.truthy line_str) then
          read_stream process_name stream_name rest
        else
          r <- handle_line process_name stream_name line_str ;;
          match snd r with
          | Return => ret [fst r]
          | Continue =>
              cs <- read_stream process_name stream_name rest ;;
              ret (fst r :: cs)
          end
  end.

(* ================================================================== *)
(** * Setup collaborators                                               *)
(* ================================================================== *)

(** What [subprocess.run(..., check=True)] does: it completes with captured
    output, or raises. *)
Inductive run_outcome : Type :=
| Completed (out err : string)
| Failed (x : exn).

Definition subprocess_run (req : effect) (r : run_outcome)
    : M (string * string) :=
  emit req ;;
  match r with
  | Completed out err => ret (out, err)
  | Failed x => raise x
  end.

(** The body of the loop over [lines[1:]] in [check_adb_devices]: the serial
    appended to [devices], if any. *)
Definition device_of_line (line : string) : option string :=
  let line := Py.strip line in
  if Py.truthy line && negb (Py.startswith "*" line) then
    match Py.split Py.tab line with
    | part0 :: part1 :: _ =>
        if String.eqb part1 "device" then Some part0 else None
    | _ => None
    end
  else None.

(** [devices] as [check_adb_devices] collects it from the captured output. *)
Definition adb_devices (out : string) : list string :=
  let lines := Py.split Py.newline (Py.strip out) in
  flat_map (fun line => match device_of_line line with
                        | Some d => [d]
                        | None => []
                        end)
           (tl lines).

Definition check_adb_devices (adb : run_outcome) : M bool :=
  print "[*] Checking for connected ADB devices..." ;;
  try_catch
    (result <- subprocess_run AdbDevices adb ;;
     let devices := adb_devices (fst result) in
     match devices with
     | _ :: _ =>
         print (Py.fstr ["[+] Found ADB device(s): "; Py.join ", " devices]) ;;
         ret true
     | [] =>
         print "[!] No ADB devices found in 'device' state" ;;
         ret false
     end)
    (fun x =>
       match x with
       | KeyboardInterrupt => None
       | TimeoutExpired =>
           Some (print "[!] Timeout checking ADB devices" ;; ret false)
       | CalledProcessError msg stderr =>
           Some (print (Py.fstr ["[!] Failed to check ADB devices: "; msg]) ;;
                 (if Py.truthy stderr
                  then print (Py.fstr ["[!] ADB Error: "; stderr])
                  else ret tt) ;;
                 ret false)
       | FileNotFoundError =>
           Some (print "[!] ADB command not found. Please install Android Debug Bridge (adb)" ;;
                 ret false)
       | _ =>
           Some (print (Py.fstr ["[!] Error checking ADB devices: "; exn_text x]) ;;
                 ret false)
       end).

(** [run_command(cmd)] with [capture_output=False], the only way the script
    calls it. *)
Definition run_command (cmd : string) (r : run_outcome) : M bool :=
  try_catch
    (subprocess_run (Shell cmd) r ;; ret true)
    (fun x =>
       match x with
       | CalledProcessError msg _ =>
           Some (print (Py.fstr ["[!] Command failed: "; cmd]) ;;
                 print (Py.fstr ["[!] Error: "; msg]) ;;
                 ret false)
       | _ => None
       end).

(** One entry of the dictionary returned by [parse_camera_info]. *)
Record camera : Type := mkCamera {
  cam_type : string;
  default_resolution : string;
  fps_range : string;
  resolutions : list string
}.

(** A [Dict[str, Dict]], in insertion order. *)
Definition cameras : Type := list (string * camera).

Fixpoint dict_get {V} (key : string) (d : list (string * V)) : option V :=
  match d with
  | [] => None
  | (k, v) :: d' => if String.eqb key k then Some v else dict_get key d'
  end.

Definition dict_mem {V} (key : string) (d : list (string * V)) : bool :=
  match dict_get key d with
  | Some _ => true
  | None => false
  end.

Definition check_v4l2loopback (lsmod : run_outcome) : M bool :=
  try_catch
    (result <- subprocess_run Lsmod lsmod ;;
     ret (Py.contains "v4l2loopback" (fst result)))
    (fun x =>
       match x with
       | CalledProcessError _ _ => Some (ret false)
       | _ => None
       end).

Definition load_v4l2loopback (lsmod modprobe : run_outcome) : M bool :=
  loaded <- check_v4l2loopback lsmod ;;
  if negb loaded then
    print "[+] Loading v4l2loopback module..." ;;
    let cmd := Py.fstr ["sudo modprobe v4l2loopback devices=1 video_nr=0 card_label=";
                        String (ascii_of_nat 34) EmptyString; CARD_LABEL;
                        String (ascii_of_nat 34) EmptyString; " exclusive_caps=1"] in
    ok <- run_command cmd modprobe ;;
    if negb ok then
      print "[!] Failed to load v4l2loopback module" ;;
      ret false
    else ret true
  else
    print "[i] v4l2loopback already loaded." ;;
    ret true.

(** What the outside world answers during [setup_virtual_mic]. *)
Record mic_env : Type := mkMicEnv {
  mic_remove_error : option string;   (* os.remove raises *)
  mkfifo_error : option string;       (* os.mkfifo raises OSError *)
  pactl_load : run_outcome            (* pactl load-module ... *)
}.

Definition setup_virtual_mic (e : mic_env) : M bool :=
  print (Py.fstr ["[+] Setting up PulseAudio virtual mic: "; VIRTUAL_MIC_SOURCE]) ;;
  (* Remove existing pipe if it exists *)
  there <- get pipe_exists ;;
  (if there then
     emit RemovePipe ;;
     match mic_remove_error e with
     | Some msg => raise (OSError msg)
     | None => modify (set_pipe_exists false)
     end
   else ret tt) ;;
  (* Create named pipe *)
  made <- try_catch
            (emit Mkfifo ;;
             match mkfifo_error e with
             | Some msg => raise (OSError msg)
             | None => modify (set_pipe_exists true) ;; ret true
             end)
            (fun x =>
               match x with
               | OSError msg =>
                   Some (print (Py.fstr ["[!] Failed to create pipe: "; msg]) ;;
                         ret false)
               | FileNotFoundError =>
                   Some (print (Py.fstr ["[!] Failed to create pipe: "; exn_text x]) ;;
                         ret false)
               | _ => None
               end) ;;
  if negb made then ret false
  else
    (* Load PulseAudio module *)
    let q := String (ascii_of_nat 34) EmptyString in
    let cmd := Py.fstr ["pactl load-module module-pipe-source source_name=";
                        q; VIRTUAL_MIC_SOURCE; q;
                        " channels=2 format=s16le rate=48000 file=";
                        q; PIPE_PATH; q] in
    try_catch
      (result <- subprocess_run (Shell cmd) (pactl_load e) ;;
       modify (set_MODULE_ID (Some (Py.strip (fst result)))) ;;
       ret true)
      (fun x =>
         match x with
         | CalledProcessError msg _ =>
             Some (print (Py.fstr ["[!] Failed to load PulseAudio module: "; msg]) ;;
                   ret false)
         | _ => None
         end).

(** What [subprocess.Popen] does: a new child (with the thread that will
    monitor it), or an exception. *)
Inductive popen_outcome : Type :=
| Spawned (p : proc) (t : thread)
| PopenFailed (x : exn).

(** The common tail of [start_scrcpy_video] and [start_scrcpy_audio]. *)
Definition spawn_monitored (cmd : list string) (r : popen_outcome)
    (failure : string) : M (option proc) :=
  try_except_Exception
    (emit (Popen cmd) ;;
     match r with
     | PopenFailed x => raise x
     | Spawned p t =>
         procs <- get scrcpy_processes ;;
         modify (set_scrcpy_processes (procs ++ [p])) ;;
         (* Start monitoring thread *)
         emit (StartThread t) ;;
         threads <- get monitoring_threads ;;
         modify (set_monitoring_threads (threads ++ [t])) ;;
         ret (Some p)
     end)
    (fun x => print (Py.fstr [failure; exn_text x]) ;; ret None).

Definition start_scrcpy_video (camera_id resolution fps : string)
    (r : popen_outcome) : M (option proc) :=
  print (Py.fstr ["[+] Starting scrcpy (video) -> "; V4L2_DEVICE]) ;;
  print (Py.fstr ["    Camera: "; camera_id; ", Resolution: "; resolution;
                  ", FPS: "; fps]) ;;
  let cmd := [ "scrcpy";
               "--video-source=camera";
               Py.fstr ["--camera-id="; camera_id];
               "--no-audio";
               Py.fstr ["--v4l2-sink="; V4L2_DEVICE];
               Py.fstr ["--camera-size="; resolution];
               Py.fstr ["--camera-fps="; fps];
               "--port"; "27183";
               "--no-window" ] in
  spawn_monitored cmd r "[!] Failed to start scrcpy video: ".

Definition start_scrcpy_audio (mic_source : string) (r : popen_outcome)
    : M (option proc) :=
  print (Py.fstr ["[+] Starting scrcpy (audio) -> "; VIRTUAL_MIC_SOURCE]) ;;
  print (Py.fstr ["    Microphone source: "; mic_source]) ;;
  let cmd := [ "scrcpy";
               "--no-video";
               "--no-playback";
               Py.fstr ["--audio-source="; mic_source];
               "--audio-codec=raw";
               "--no-window";
               Py.fstr ["--record="; PIPE_PATH];
               "--port"; "27184";
               "--record-format=wav" ] in
  spawn_monitored cmd r "[!] Failed to start scrcpy audio: ".

(* ================================================================== *)
(** * Interactive selection and main                                    *)
(* ================================================================== *)

(** [for i, x in enumerate(l)] *)
Definition enumerate {A} (l : list A) : list (nat * A) :=
  combine (seq 0 (List.length l)) l.

(** [repr] of a list of integers, as an f-string prints it. *)
Definition repr_ints (l : list Z) : string :=
  Py.fstr ["["; Py.join ", " (map Py.str_Z l); "]"].

(** [max(l)] of a list of integers; [ValueError] on the empty list. *)
Definition py_max (l : list Z) : option Z :=
  match l with
  | [] => None
  | x :: l' => Some (fold_left Z.max l' x)
  end.

(** [l.remove(x)]: the first occurrence goes. *)
Fixpoint list_remove (x : proc) (l : list proc) : list proc :=
  match l with
  | [] => []
  | y :: l' => if Nat.eqb x y then l' else y :: list_remove x l'
  end.

(** [[f(x) for x in l]] where [f] may raise [ValueError]. *)
Fixpoint map_or_ValueError {A B} (f : A -> option B) (l : list A)
    : M (list B) :=
  match l with
  | [] => ret []
  | x :: l' =>
      match f x with
      | None => raise ValueError
      | Some y => ys <- map_or_ValueError f l' ;; ret (y :: ys)
      end
  end.

Definition common_resolutions : list string :=
  ["1920x1080"; "1280x720"; "640x480"; "1920x1440"; "2560x1440"; "3840x2160"].

(** One [readline] of one reader thread: the process name and stream name
    the thread was started with, and what the read does. *)
Record reader_step : Type := mkReaderStep {
  reader_process : string;
  reader_stream : string;
  reader_read : read_event
}.

(** What happens around one turn of the main loop: the reads the reader
    threads got through since the previous poll, what [proc.poll()]
    answers, and whether SIGINT or SIGTERM arrives during the sleep. *)
Record tick : Type := mkTick {
  readers : list reader_step;
  poll : proc -> option Z;            (* None while the process runs *)
  signal : option cleanup_env
}.

(** What the outside world answers during one run of [main]. *)
Record main_env : Type := mkMainEnv {
  adb : run_outcome;
  camera_query : run_outcome;
  lsmod : run_outcome;
  modprobe : run_outcome;
  mic : mic_env;
  video_popen : popen_outcome;
  audio_popen : popen_outcome;
  ticks : list tick;
  end_cleanup : cleanup_env
}.

Section Builtins.

(** Python's [int(s)] on text ([None] stands for [ValueError]), and the
    regular-expression parser [parse_camera_info] of the capability
    listing, whose text format no property below depends on. *)
Variable py_int : string -> option Z.
Variable parse_camera_info : string -> cameras.

Definition get_camera_info (q : run_outcome) : M (option cameras) :=
  print "[*] Getting camera information..." ;;
  try_catch
    (result <- subprocess_run ListCameraSizes q ;;
     (* Check for ADB device error in the output *)
     if Py.contains "Could not find any ADB device" (snd result) then
       print "[!] Error output: ERROR: Could not find any ADB device" ;;
       ret None
     else ret (Some (parse_camera_info (fst result))))
    (fun x =>
       match x with
       | KeyboardInterrupt => None
       | TimeoutExpired =>
           Some (print "[!] Timeout getting camera information" ;; ret None)
       | CalledProcessError msg stderr =>
           Some (print (Py.fstr ["[!] Failed to get camera information: "; msg]) ;;
                 (if Py.truthy stderr then
                    print (Py.fstr ["[!] Error output: "; stderr]) ;;
                    (if Py.contains "Could not find any ADB device" stderr
                     then print "[!] No ADB device found - cannot proceed"
                     else ret tt)
                  else ret tt) ;;
                 ret None)
       | _ =>
           Some (print (Py.fstr ["[!] Error getting camera information: ";
                                 exn_text x]) ;;
                 ret None)
       end).

Definition cancelled {A} : M A :=
  print (Py.fstr [Py.nl; "[*] Cancelled by user"]) ;;
  sys_exit 0.

Definition select_camera (cams : cameras) : M (string * string * string) :=
  match cams with
  | [] =>
      print "[!] No cameras found" ;;
      ret ("0", "1920x1080", DEFAULT_FPS)
  | _ :: _ =>
      print (Py.fstr [Py.nl; "[*] Available cameras:"]) ;;
      for_each cams
        (fun kv =>
           let camera_id := fst kv in
           let info := snd kv in
           print (Py.fstr ["  "; camera_id; ": "; cam_type info;
                           " camera (default: "; default_resolution info;
                           ", fps: ["; fps_range info; "])"])) ;;
      (* Select camera *)
      selected_camera <-
        while_True
          (try_except_KeyboardInterrupt
             (typed <- input (Py.fstr [Py.nl; "Select camera ID (default: 0): "]) ;;
              let selected := Py.strip typed in
              let selected := if negb (Py.truthy selected) then "0" else selected in
              if dict_mem selected cams then ret (Some selected)
              else
                print (Py.fstr ["[!] Invalid camera ID. Available: ";
                                Py.join ", " (map fst cams)]) ;;
                ret None)
             cancelled) ;;
      match dict_get selected_camera cams with
      | None => raise IndexError   (* unreachable: the loop checked the key *)
      | Some camera_info =>
          let avail := resolutions camera_info in
          print (Py.fstr [Py.nl; "[*] Available resolutions for camera ";
                          selected_camera; " ("; cam_type camera_info; "):"]) ;;
          (* easy selection for common res *)
          let other_resolutions :=
            filter (fun r => negb (Py.mem r common_resolutions)) avail in
          print "  Common resolutions:" ;;
          for_each (enumerate common_resolutions)
            (fun ir =>
               if Py.mem (snd ir) avail
               then print (Py.fstr ["    "; Py.str_nat (fst ir + 1); ": "; snd ir])
               else ret tt) ;;
          (match other_resolutions with
           | _ :: _ =>
               print "  Other resolutions:" ;;
               let start_idx :=
                 List.length (filter (fun r => Py.mem r avail) common_resolutions) + 1 in
               for_each (enumerate other_resolutions)
                 (fun ir =>
                    print (Py.fstr ["    "; Py.str_nat (start_idx + fst ir);
                                    ": "; snd ir]))
           | [] => ret tt
           end) ;;
          (* Select resolution *)
          let all_available :=
            filter (fun r => Py.mem r avail) common_resolutions
            ++ other_resolutions in
          let count := Py.str_nat (List.length all_available) in
          selected_resolution <-
            while_True
              (try_except_KeyboardInterrupt
                 (typed <- input (Py.fstr [Py.nl; "Select resolution (1-"; count;
                                           ", default: 1920x1080): "]) ;;
                  let res_input := Py.strip typed in
                  if negb (Py.truthy res_input) then
                    if Py.mem "1920x1080" avail then ret (Some "1920x1080")
                    else match avail with
                         | first :: _ => ret (Some first)
                         | [] => raise IndexError
                         end
                  else
                    match py_int res_input with
                    | None => print "[!] Please enter a number" ;; ret None
                    | Some n =>
                        let res_idx := (n - 1)%Z in
                        if ((0 <=? res_idx)%Z
                            && (res_idx <? Z.of_nat (List.length all_available))%Z)
                        then match nth_error all_available (Z.to_nat res_idx) with
                             | Some r => ret (Some r)
                             | None => raise IndexError
                             end
                        else
                          print (Py.fstr ["[!] Invalid selection. Choose 1-"; count]) ;;
                          ret None
                    end)
                 cancelled) ;;
          (* Select FPS *)
          fps_options <-
            map_or_ValueError (fun x => py_int (Py.strip x))
              (Py.split (ascii_of_nat 44) (fps_range camera_info)) ;;
          print (Py.fstr [Py.nl; "[*] Available FPS rates: "; repr_ints fps_options]) ;;
          selected_fps <-
            while_True
              (try_except_KeyboardInterrupt
                 (best <- match py_max fps_options with
                          | Some m => ret m
                          | None => raise ValueError
                          end ;;
                  typed <- input (Py.fstr ["Select FPS (";
                                           Py.join "/" (map Py.str_Z fps_options);
                                           ", default: "; Py.str_Z best; "): "]) ;;
                  let fps_input := Py.strip typed in
                  if negb (Py.truthy fps_input) then ret (Some (Py.str_Z best))
                  else
                    match py_int fps_input with
                    | None => print "[!] Please enter a valid number" ;; ret None
                    | Some fps_val =>
                        if existsb (Z.eqb fps_val) fps_options
                        then ret (Some fps_input)
                        else
                          print (Py.fstr ["[!] Invalid FPS. Available: ";
                                          repr_ints fps_options]) ;;
                          ret None
                    end)
                 cancelled) ;;
          ret (selected_camera, selected_resolution, selected_fps)
      end
  end.

Definition select_microphone_source : M string :=
  print (Py.fstr [Py.nl; "[*] Available microphone sources:"]) ;;
  for_each MIC_SOURCES
    (fun kv =>
       print (Py.fstr ["  "; fst kv; ": "; fst (snd kv); " - "; snd (snd kv)])) ;;
  let count := Py.str_nat (List.length MIC_SOURCES) in
  while_True
    (try_except_KeyboardInterrupt
       (typed <- input (Py.fstr [Py.nl; "Select microphone source (1-"; count;
                                 ", default: 3): "]) ;;
        let mic_input := Py.strip typed in
        if negb (Py.truthy mic_input) then
          match dict_get "3" MIC_SOURCES with
          | Some v => ret (Some (fst v))   (* Default to mic-camcorder *)
          | None => raise IndexError
          end
        else
          match dict_get mic_input MIC_SOURCES with
          | Some v => ret (Some (fst v))
          | None =>
              print (Py.fstr ["[!] Invalid selection. Choose 1-"; count]) ;;
              ret None
          end)
       cancelled).

(** The [while True] loop at the end of [main], one turn per [tick].  The
    reader threads run beside it; their reads since the previous poll are
    played first, each as one turn of its monitor's loop. *)
Fixpoint supervise (ts : list tick) : M unit :=
  match ts with
  | [] => pending
  | t :: ts' =>
      for_each (readers t)
        (fun r =>
           read_stream (reader_process r) (reader_stream r) [reader_read r] ;;
           ret tt) ;;
      (* device disconnection *)
      gone <- get device_disconnected ;;
      if gone then
        print "[!] Device disconnection detected - stopping..."
      else
        (* process died *)
        snapshot <- get scrcpy_processes ;;
        for_each snapshot
          (fun p =>
             match poll t p with
             | Some code =>
                 print (Py.fstr ["[!] A scrcpy process has terminated unexpectedly (exit code: ";
                                 Py.str_Z code; ")"]) ;;
                 procs <- get scrcpy_processes ;;
                 modify (set_scrcpy_processes (list_remove p procs))
             | None => ret tt
             end) ;;
        left <- get scrcpy_processes ;;
        match left with
        | [] => print "[!] All scrcpy processes have terminated"
        | _ :: _ =>
            emit Sleep ;;
            match signal t with
            | Some e => signal_handler e
            | None => supervise ts'
            end
        end
  end.

(** The [if not cameras: ... else: ...] of [main]: the configuration it
    goes on with. *)
Definition camera_choice (cams : cameras) : M (string * string * string) :=
  match cams with
  | [] =>
      print "[!] No cameras found on the device" ;;
      ret ("0", "1920x1080", DEFAULT_FPS)
  | _ :: _ => select_camera cams
  end.

Definition main (e : main_env) : M unit :=
  print "[*] AdbCam Setup - Enhanced Version" ;;
  print "[*] =====================================" ;;
  (* First check for ADB devices *)
  found <- check_adb_devices (adb e) ;;
  (if negb found then
     print (Py.fstr [Py.nl; "[!] SETUP FAILED: No ADB devices found"]) ;;
     print "[*] Please ensure:" ;;
     print "    1. Your Android device is connected via USB" ;;
     print "    2. USB debugging is enabled on your device" ;;
     print "    3. You have authorized this computer on your device" ;;
     print "    4. ADB is properly installed" ;;
     print (Py.fstr [Py.nl; "[*] Try running 'adb devices' manually to troubleshoot"]) ;;
     sys_exit 1
   else ret tt) ;;
  (* Get camera information *)
  info <- get_camera_info (camera_query e) ;;
  cams <- match info with
          | None =>
              print (Py.fstr [Py.nl; "[!] SETUP FAILED: Could not get camera information"]) ;;
              print "[*] This usually means:" ;;
              print "    1. No ADB device is connected" ;;
              print "    2. The device doesn't support camera access via scrcpy" ;;
              print "    3. Camera permissions are not granted" ;;
              sys_exit 1
          | Some cams => ret cams
          end ;;
  choice <- camera_choice cams ;;
  let camera_id := fst (fst choice) in
  let resolution := snd (fst choice) in
  let fps := snd choice in
  (* Select microphone source *)
  mic_source <- select_microphone_source ;;
  print (Py.fstr [Py.nl; "[*] Configuration selected:"]) ;;
  print (Py.fstr ["    Camera ID: "; camera_id]) ;;
  print (Py.fstr ["    Resolution: "; resolution]) ;;
  print (Py.fstr ["    FPS: "; fps]) ;;
  print (Py.fstr ["    Microphone: "; mic_source]) ;;
  print (Py.fstr ["    V4L2 Device: "; V4L2_DEVICE]) ;;
  input (Py.fstr [Py.nl; "Press Enter to continue with setup..."]) ;;
  (* Check and load v4l2loopback *)
  loaded <- load_v4l2loopback (lsmod e) (modprobe e) ;;
  (if negb loaded then
     print "[!] Failed to setup v4l2loopback" ;;
     sys_exit 1
   else ret tt) ;;
  (* Setup virtual microphone *)
  mic_ok <- setup_virtual_mic (mic e) ;;
  (if negb mic_ok then
     print "[!] Failed to setup virtual microphone" ;;
     sys_exit 1
   else ret tt) ;;
  (* Start scrcpy instances *)
  video_proc <- start_scrcpy_video camera_id resolution fps (video_popen e) ;;
  (match video_proc with
   | None =>
       print "[!] Failed to start video capture" ;;
       sys_exit 1
   | Some _ => ret tt
   end) ;;
  (* Wait a moment before starting audio to avoid port conflicts *)
  emit Sleep ;;
  audio_proc <- start_scrcpy_audio mic_source (audio_popen e) ;;
  (match audio_proc with
   | None =>
       print "[!] Failed to start audio capture" ;;
       sys_exit 1
   | Some _ => ret tt
   end) ;;
  (* Print success message *)
  print EmptyString ;;
  print (Py.repeat_str "=" 60) ;;
  print "[*] Setup complete!" ;;
  print (Py.fstr ["[*] Camera is available at "; V4L2_DEVICE; " (select '";
                  CARD_LABEL; "' in video apps)"]) ;;
  print (Py.fstr ["[*] Android mic is available as '"; VIRTUAL_MIC_SOURCE;
                  "' (select as microphone in apps)"]) ;;
  print "[*] Press Ctrl+C to stop and clean up" ;;
  print "[*] Monitoring for device disconnection..." ;;
  print (Py.repeat_str "=" 60) ;;
  print EmptyString ;;
  (* Wait for processes, user interrupt, or device disconnection *)
  try_except_KeyboardInterrupt
    (supervise (ticks e))
    (print (Py.fstr [Py.nl; "[*] Interrupted by user"])) ;;
  cleanup (end_cleanup e).

(** The exit status of the interpreter: zero when [main] returns or calls
    [sys.exit(0)], the argument of [sys.exit] otherwise, one when an
    exception escapes; none while the run has not ended. *)
Definition exit_status {A} (o : outcome A) : option Z :=
  match o with
  | Ret _ => Some 0%Z
  | Exit code => Some code
  | Raise _ => Some 1%Z
  | Pending => None
  end.

(** The script as a whole: [main()], then the hook registered with
    [atexit.register(cleanup)] as the interpreter shuts down.  What the
    hook raises is reported and does not change the exit status. *)
Definition program (e : main_env) (at_exit : cleanup_env)
    : world -> option Z * world :=
  fun w =>
    match main e w with
    | (Pending, w') => (None, w')
    | (o, w') => (exit_status o, snd (cleanup at_exit w'))
    end.

End Builtins.

(* ================================================================== *)
(** * Vocabulary of the properties                                      *)
(* ================================================================== *)

(** A pattern is [bounded] when it is not empty and neither starts nor
    ends with white space: stripping a line cannot cut into it. *)
Fixpoint ends_nonspace (p : string) : bool :=
  match p with
  | EmptyString => true
  | String a EmptyString => negb (Py.is_space a)
  | String _ p' => ends_nonspace p'
  end.

Definition bounded (p : string) : bool :=
  match p with
  | EmptyString => false
  | String a _ => negb (Py.is_space a) && ends_nonspace p
  end.

(** ** Lines of diagnostic output, in the words of the specification *)

(** The marker of a lost device link: a warning that says so. *)
Definition link_lost (s : string) : bool :=
  Py.contains "Device disconnected" s && Py.contains "WARN:" s.

(** The marker of no reachable device. *)
Definition no_device (s : string) : bool :=
  Py.contains "Could not find any ADB device" s.

Definition disconnection_pattern (s : string) : bool :=
  link_lost s || no_device s.

Definition has_fatal_marker (s : string) : bool :=
  existsb (fun k => Py.contains k s) keywords.

Definition has_warning_marker (s : string) : bool :=
  Py.contains "WARN:" s.

Definition has_disconnect_marker (s : string) : bool :=
  Py.contains "Device disconnected" s.

(** The classification policy, in its stated priority order. *)
Definition spec_category (s : string) : category :=
  if disconnection_pattern s then Disconnect
  else if has_fatal_marker s then FatalError
  else if has_warning_marker s && negb (has_disconnect_marker s) then Warning
  else Info.

(** Only a disconnect ends the monitor's loop. *)
Definition control_of (c : category) : control :=
  match c with
  | Disconnect => Return
  | _ => Continue
  end.

(** What is shown to the operator for a stripped line, by category. *)
Definition surfaced (process_name stream_name line_str : string)
    : list string :=
  match spec_category line_str with
  | Disconnect =>
      [Py.fstr ["[!] "; process_name;
                if link_lost line_str then ": Device disconnected detected!"
                else ": No ADB device found!"]]
  | FatalError =>
      [Py.fstr ["[!] "; process_name; " ("; stream_name; "): "; line_str]]
  | Warning =>
      [Py.fstr ["[W] "; process_name; " ("; stream_name; "): "; line_str]]
  | Info => []
  end.

(** All a monitor can do to the shared world: raise the event, write
    diagnostics. *)
Definition monitor_effect (raised : bool) (out : list string) (w : world)
    : world :=
  mkWorld (MODULE_ID w) (scrcpy_processes w) (monitoring_threads w)
          (device_disconnected w || raised) (pipe_exists w) (stdin w)
          (stdout w ++ out) (effects w).

Definition is_disconnect (c : category) : bool := category_eqb c Disconnect.

(** A trace in which a disconnect can only come last. *)
Fixpoint disconnect_only_last (tr : list category) : bool :=
  match tr with
  | [] => true
  | [_] => true
  | c :: tr' => negb (is_disconnect c) && disconnect_only_last tr'
  end.

(** The reads before position [n] are all lines (no end of stream, no
    error). *)
Definition all_lines (pre : list read_event) : bool :=
  forallb (fun ev => match ev with
                     | ReadLine l => Py.truthy l
                     | ReadError _ => false
                     end) pre.

(** The reads of [pre] let the monitor through: lines, none of which matches
    the disconnection pattern. *)
Definition passes_through (pre : list read_event) : bool :=
  forallb (fun ev => match ev with
                     | ReadLine l => Py.truthy l && negb (disconnection_pattern l)
                     | ReadError _ => false
                     end) pre.

(** The entry a failed read leaves in the log. *)
Definition read_error_log (process_name stream_name msg : string) : string :=
  Py.fstr ["[!] Error monitoring "; process_name; " "; stream_name; ": "; msg].

(** Sample streams used to exercise the statements below. *)
Definition sample_stream : list read_event :=
  [ ReadLine (Py.fstr ["INFO: Device: [Google] Pixel"; Py.nl]);
    ReadLine (Py.fstr ["WARN: Device disconnected"; Py.nl]);
    ReadLine (Py.fstr ["ERROR: Server connection failed"; Py.nl]) ].

Definition sample_quiet_lines : list read_event :=
  [ ReadLine (Py.fstr ["INFO: Device: [Google] Pixel"; Py.nl]);
    ReadLine (Py.fstr ["WARN: Demuxer error"; Py.nl]) ].

(** ** Teardown, request by request *)

(** No monitoring thread is alive when [cleanup] looks. *)
Definition no_thread_alive (e : cleanup_env) (w : world) : bool :=
  forallb (fun t => negb (thread_alive e t)) (monitoring_threads w).

(** The requests [cleanup] sends for one tracked process. *)
Definition requests_one (e : cleanup_env) (p : proc) : list effect :=
  Terminate p ::
  (if terminate_raises e p then [Kill p]
   else Wait p :: (if wait_timeout e p then [Kill p] else [])).

Definition is_kill (x : effect) : bool :=
  match x with Kill _ => true | _ => false end.

Definition is_terminate (x : effect) : bool :=
  match x with Terminate _ => true | _ => false end.

Definition unload_requests (w : world) : list effect :=
  match MODULE_ID w with
  | Some m => if Py.truthy m then [PactlUnload m] else []
  | None => []
  end.

Definition remove_requests (w : world) : list effect :=
  if pipe_exists w then [RemovePipe] else [].

Definition banner : string := "[*] Cleaning up...".

Definition unload_failure (msg : string) : string :=
  Py.fstr ["[!] Error unloading module: "; msg].
Definition remove_failure (msg : string) : string :=
  Py.fstr ["[!] Error removing pipe: "; msg].
Definition pkill_failure (msg : string) : string :=
  Py.fstr ["[!] Error killing scrcpy processes: "; msg].

Definition log_of (error : option string) (entry : string -> string)
    : list string :=
  match error with
  | Some msg => [entry msg]
  | None => []
  end.

Definition unload_log (e : cleanup_env) (w : world) : list string :=
  match unload_requests w with
  | [] => []
  | _ :: _ => log_of (unload_error e) unload_failure
  end.

Definition remove_log (e : cleanup_env) (w : world) : list string :=
  if pipe_exists w then log_of (remove_error e) remove_failure else [].

Definition pipe_left (e : cleanup_env) (w : world) : bool :=
  pipe_exists w && match remove_error e with Some _ => true | None => false end.

(** The world a completed [cleanup] leaves. *)
Definition cleanup_world (e : cleanup_env) (w : world) : world :=
  mkWorld (MODULE_ID w) (scrcpy_processes w) (monitoring_threads w)
          (device_disconnected w) (pipe_left e w) (stdin w)
          (stdout w ++ banner :: unload_log e w ++ remove_log e w
                      ++ log_of (pkill_error e) pkill_failure)
          (effects w ++ unload_requests w ++ remove_requests w ++ Pkill
                      :: flat_map (requests_one e) (scrcpy_processes w)).

(** Sample answers of the outside world and a sample state of a run. *)
Definition quiet_env : cleanup_env :=
  mkCleanupEnv (fun _ => false) None None None
               (fun _ => false) (fun _ => false) (fun _ => false).

(** Process 102 ignores the termination request for the whole grace
    period. *)
Definition stubborn_env : cleanup_env :=
  mkCleanupEnv (fun _ => false) None None None
               (fun _ => false) (fun p => Nat.eqb p 102) (fun _ => false).

(** Every request to a tracked process raises. *)
Definition hostile_env : cleanup_env :=
  mkCleanupEnv (fun _ => false) None None None
               (fun _ => true) (fun _ => true) (fun _ => true).

(** The audio monitoring thread (thread 2) is still alive. *)
Definition early_env : cleanup_env :=
  mkCleanupEnv (fun t => Nat.eqb t 2) None None None
               (fun _ => false) (fun _ => false) (fun _ => false).

Definition running_world : world :=
  mkWorld (Some "42") [101; 102] [1; 2] false true [] [] [].

(** The world after one completed call of [cleanup] on the sample state. *)
Definition after_first_cleanup : world :=
  snd (cleanup quiet_env running_world).

(** ** Device listing and sample runs *)

(** A line of the trimmed listing that, once trimmed itself, does not start
    with ['*'] and has ["device"] as its second tab-separated field. *)
Definition device_line (line : string) : Prop :=
  Py.startswith "*" (Py.strip line) = false
  /\ exists serial state rest,
       Py.split Py.tab (Py.strip line) = serial :: state :: rest
       /\ state = "device".

(** The same test on the line as it stands in the output, untrimmed. *)
Definition raw_device_line (line : string) : bool :=
  negb (Py.startswith "*" line)
  && match Py.split Py.tab line with
     | _ :: state :: _ => String.eqb state "device"
     | _ => false
     end.

(** A listing whose device line carries a trailing blank. *)
Definition padded_listing : string :=
  Py.fstr ["List of devices attached"; Py.nl;
           "emulator-5554"; String Py.tab "device "; Py.nl;
           "0a388e93"; String Py.tab "offline"; Py.nl].

Definition plain_listing : string :=
  Py.fstr ["List of devices attached"; Py.nl;
           "emulator-5554"; String Py.tab "device"; Py.nl].

Definition fallback_choice : string * string * string :=
  ("0", "1920x1080", "60").

(** A run in which every setup step succeeds, the device reports no camera,
    and the video process has reported that no device is reachable by the
    time of the first poll.  [at_end] is what the call of [cleanup] at the
    end of [main] meets. *)
Definition disconnect_run (at_end : cleanup_env) : main_env :=
  mkMainEnv (Completed plain_listing EmptyString)
            (Completed EmptyString EmptyString)
            (Completed "v4l2loopback 45056 0" EmptyString)
            (Completed EmptyString EmptyString)
            (mkMicEnv None None (Completed (Py.fstr ["42"; Py.nl]) EmptyString))
            (Spawned 101 1)
            (Spawned 102 2)
            [mkTick [mkReaderStep "Video" "stderr"
                       (ReadLine (Py.fstr ["ERROR: Could not find any ADB device";
                                           Py.nl]))]
                    (fun _ => None) None]
            at_end.

(** How the run phase of [main] can leave its loop. *)
Definition run_phase_end (o : outcome unit) : Prop :=
  o = Ret tt
  \/ o = Exit 0%Z
  \/ o = Raise (RuntimeError "cannot set daemon status of active thread")
  \/ o = Pending.

(** A run in which every setup step succeeds and the operator interrupts
    during the first sleep of the main loop. *)
Definition interrupt_run : main_env :=
  mkMainEnv (Completed plain_listing EmptyString)
            (Completed EmptyString EmptyString)
            (Completed "v4l2loopback 45056 0" EmptyString)
            (Completed EmptyString EmptyString)
            (mkMicEnv None None (Completed (Py.fstr ["42"; Py.nl]) EmptyString))
            (Spawned 101 1)
            (Spawned 102 2)
            [mkTick [] (fun _ => None) (Some quiet_env)]
            quiet_env.

Definition is_pkill (x : effect) : bool :=
  match x with Pkill => true | _ => false end.

(** Every [sys.exit] a computation can end with carries a code in [P]. *)
Definition exits_with {A} (P : Z -> Prop) (m : M A) : Prop :=
  forall w c w', m w = (Exit c, w') -> P c.

(** A setup step of [main] gave up: no device in the listing, no camera
    information, no loopback module, no virtual microphone, or one of the
    two capture processes could not be launched. *)
Definition setup_failure (parse : string -> cameras) (e : main_env) : Prop :=
  (exists w, fst (check_adb_devices (adb e) w) = Ret false)
  \/ (exists w, fst (get_camera_info parse (camera_query e) w) = Ret None)
  \/ (exists w, fst (load_v4l2loopback (lsmod e) (modprobe e) w) = Ret false)
  \/ (exists w, fst (setup_virtual_mic (mic e) w) = Ret false)
  \/ (exists camera_id resolution fps w,
        fst (start_scrcpy_video camera_id resolution fps (video_popen e) w)
        = Ret None)
  \/ (exists mic_source w,
        fst (start_scrcpy_audio mic_source (audio_popen e) w) = Ret None).

(** The codes [main] passes to [sys.exit]: zero, or one after a setup
    failure. *)
Definition main_exit_code (parse : string -> cameras) (e : main_env)
    (c : Z) : Prop :=
  c = 0%Z \/ (c = 1%Z /\ setup_failure parse e).

(** The operator accepts the default microphone and presses Enter. *)
Definition two_returns : list stdin_event := [Typed EmptyString; Typed EmptyString].

Definition no_int : string -> option Z := fun _ => None.
Definition no_cameras : string -> cameras := fun _ => [].

(* ================================================================== *)
(** * Facts about the string primitives                                 *)
(* ================================================================== *)

Module PyFacts.
Import Py.

Lemma ends_nonspace_tail a p :
  ends_nonspace (String a p) = true -> ends_nonspace p = true.
Proof.
  destruct p as [|b p]; [reflexivity | intro H; exact H].
Qed.

Lemma space_neq a c :
  is_space a = false -> is_space c = true -> Ascii.eqb a c = false.
Proof.
  intros Ha Hc. destruct (Ascii.eqb a c) eqn:E; [|reflexivity].
  apply Ascii.eqb_eq in E. subst. congruence.
Qed.

Lemma startswith_rstrip p :
  ends_nonspace p = true ->
  forall s, startswith p (rstrip s) = startswith p s.
Proof.
  induction p as [|a p IH]; intros Hp s.
  - destruct (rstrip s), s; reflexivity.
  - destruct s as [|c s]; [reflexivity|].
    cbn [rstrip].
    destruct (is_space c && negb (truthy (rstrip s))) eqn:E.
    + apply andb_true_iff in E. destruct E as [Hc Hr].
      destruct (rstrip s) as [|x r] eqn:Er; [|discriminate].
      cbn [startswith].
      destruct p as [|b p].
      * cbn in Hp. apply negb_true_iff in Hp.
        rewrite (space_neq a c Hp Hc). reflexivity.
      * rewrite <- (IH (ends_nonspace_tail _ _ Hp) s), Er.
        cbn [startswith]. rewrite andb_false_r. reflexivity.
    + cbn [startswith].
      rewrite (IH (ends_nonspace_tail _ _ Hp) s). reflexivity.
Qed.

Lemma contains_rstrip p s :
  ends_nonspace p = true -> contains p (rstrip s) = contains p s.
Proof.
  intro Hp. induction s as [|c s IH]; [reflexivity|].
  cbn [contains]. rewrite <- IH, <- (startswith_rstrip p Hp (String c s)).
  cbn [rstrip].
  destruct (is_space c && negb (truthy (rstrip s))) eqn:E.
  - apply andb_true_iff in E. destruct E as [_ Hr].
    destruct (rstrip s); [|discriminate].
    cbn [contains]. destruct (startswith p EmptyString); reflexivity.
  - cbn [contains]. reflexivity.
Qed.

Lemma contains_lstrip p s :
  bounded p = true -> contains p (lstrip s) = contains p s.
Proof.
  destruct p as [|a p]; [discriminate|].
  cbn [bounded]. intro Hp. apply andb_true_iff in Hp. destruct Hp as [Ha _].
  apply negb_true_iff in Ha.
  induction s as [|c s IH]; [reflexivity|].
  cbn [lstrip]. destruct (is_space c) eqn:Hc; [|reflexivity].
  rewrite IH. cbn [contains startswith].
  rewrite (space_neq a c Ha Hc). reflexivity.
Qed.

(** [needle in line.strip()] is [needle in line] for a bounded needle. *)
Lemma contains_strip p s :
  bounded p = true -> contains p (strip s) = contains p s.
Proof.
  intro Hp. unfold strip.
  rewrite contains_rstrip, contains_lstrip; auto.
  destruct p; [discriminate|].
  cbn [bounded] in Hp. apply andb_true_iff in Hp. tauto.
Qed.

Lemma startswith_refl_app x b : startswith x (x ++ b) = true.
Proof.
  induction x as [|a x IH]; [reflexivity|].
  cbn. rewrite Ascii.eqb_refl. exact IH.
Qed.

Lemma contains_app_r x a y :
  contains x y = true -> contains x (a ++ y) = true.
Proof.
  intro H. induction a as [|c a IH]; [exact H|].
  cbn [append contains]. rewrite IH. apply orb_true_r.
Qed.

(** A piece of a concatenation occurs in it. *)
Lemma contains_middle x a b : contains x (a ++ x ++ b) = true.
Proof.
  apply contains_app_r.
  destruct x as [|c x]; [destruct b; reflexivity|].
  pose proof (startswith_refl_app (String c x) b) as H.
  cbn [append] in *. cbn [contains]. rewrite H. reflexivity.
Qed.

Lemma append_empty_r (s : string) : (s ++ EmptyString)%string = s.
Proof. induction s as [|c s IH]; [reflexivity | cbn; rewrite IH; reflexivity]. Qed.

Lemma append_assoc (a b c : string) :
  ((a ++ b) ++ c)%string = (a ++ b ++ c)%string.
Proof. induction a as [|x a IH]; [reflexivity | cbn; rewrite IH; reflexivity]. Qed.

Lemma fstr_cons x l : fstr (x :: l) = (x ++ fstr l)%string.
Proof.
  unfold fstr. destruct l as [|y l]; cbn.
  - rewrite append_empty_r. reflexivity.
  - reflexivity.
Qed.

Lemma fstr_app l1 l2 : fstr (l1 ++ l2) = (fstr l1 ++ fstr l2)%string.
Proof.
  induction l1 as [|x l1 IH]; [reflexivity|].
  cbn [app]. rewrite !fstr_cons, IH, append_assoc. reflexivity.
Qed.

(** Every piece of an f-string occurs in its value. *)
Lemma contains_piece x l1 l2 : contains x (fstr (l1 ++ x :: l2)) = true.
Proof. rewrite fstr_app, fstr_cons. apply contains_middle. Qed.

Lemma truthy_false s : truthy s = false -> s = EmptyString.
Proof. destruct s; [reflexivity | discriminate]. Qed.

Lemma contains_empty p : bounded p = true -> contains p EmptyString = false.
Proof. destruct p; [discriminate | reflexivity]. Qed.

End PyFacts.

(* ================================================================== *)
(** * Stream monitors: classification and termination                   *)
(* ================================================================== *)

Module MonitorFacts.
Import PyFacts.

Lemma monitor_effect_id w : monitor_effect false [] w = w.
Proof.
  destruct w. unfold monitor_effect. cbn.
  rewrite orb_false_r, app_nil_r. reflexivity.
Qed.

Lemma monitor_effect_comp f1 o1 f2 o2 w :
  monitor_effect f2 o2 (monitor_effect f1 o1 w)
  = monitor_effect (f1 || f2) (o1 ++ o2) w.
Proof.
  unfold monitor_effect. cbn. rewrite orb_assoc, app_assoc. reflexivity.
Qed.

Lemma monitor_effect_print m w :
  set_stdout (stdout w ++ [m]) w = monitor_effect false [m] w.
Proof.
  destruct w. unfold monitor_effect, set_stdout. cbn.
  rewrite orb_false_r. reflexivity.
Qed.

(** Stripping a line changes none of the tests of the classification. *)
Lemma spec_category_strip line :
  spec_category (Py.strip line) = spec_category line.
Proof.
  unfold spec_category, disconnection_pattern, link_lost, no_device,
    has_fatal_marker, has_warning_marker, has_disconnect_marker, keywords.
  cbn [existsb].
  rewrite !contains_strip by reflexivity. reflexivity.
Qed.

Lemma disconnection_pattern_strip line :
  disconnection_pattern (Py.strip line) = disconnection_pattern line.
Proof.
  unfold disconnection_pattern, link_lost, no_device.
  rewrite !contains_strip by reflexivity. reflexivity.
Qed.

Lemma link_lost_strip line : link_lost (Py.strip line) = link_lost line.
Proof.
  unfold link_lost. rewrite !contains_strip by reflexivity. reflexivity.
Qed.

Lemma spec_category_blank line :
  Py.truthy (Py.strip line) = false -> spec_category line = Info.
Proof.
  intro H. rewrite <- spec_category_strip, (truthy_false _ H). reflexivity.
Qed.

Lemma spec_category_disconnect s :
  spec_category s = Disconnect <-> disconnection_pattern s = true.
Proof.
  unfold spec_category.
  destruct (disconnection_pattern s); [tauto|].
  destruct (has_fatal_marker s); [split; discriminate|].
  destruct (has_warning_marker s && negb (has_disconnect_marker s));
    split; discriminate.
Qed.

Lemma disconnection_pattern_truthy line :
  disconnection_pattern line = true ->
  Py.truthy line = true /\ Py.truthy (Py.strip line) = true.
Proof.
  intro H. split.
  - destruct line; [discriminate | reflexivity].
  - rewrite <- disconnection_pattern_strip in H.
    destruct (Py.strip line); [discriminate | reflexivity].
Qed.

(** The loop body does what the policy says, and touches the world only
    through the event and the log. *)
Lemma handle_line_run pn sn s w :
  handle_line pn sn s w
  = (Ret (spec_category s, control_of (spec_category s)),
     monitor_effect (is_disconnect (spec_category s)) (surfaced pn sn s) w).
Proof.
  unfold handle_line, surfaced, spec_category, disconnection_pattern,
    link_lost, no_device, has_fatal_marker, has_warning_marker,
    has_disconnect_marker.
  destruct (Py.contains "Device disconnected" s) eqn:Hd;
  destruct (Py.contains "WARN:" s) eqn:Hw;
  destruct (Py.contains "Could not find any ADB device" s) eqn:Hn;
  destruct (existsb (fun k => Py.contains k s) keywords) eqn:Hk;
  cbn -[Py.fstr]; destruct w; unfold monitor_effect, set_stdout,
    set_device_disconnected; cbn -[Py.fstr];
  rewrite ?orb_true_r, ?orb_false_r, ?app_nil_r; reflexivity.
Qed.

(** One turn of the monitor's loop on a line that was read. *)
Lemma read_stream_cons_line pn sn line rest w :
  read_stream pn sn (ReadLine line :: rest) w =
  if negb (Py.truthy line) then (Ret [], w)
  else if negb (Py.truthy (Py.strip line)) then read_stream pn sn rest w
  else match control_of (spec_category line) with
       | Return =>
           (Ret [spec_category line],
            monitor_effect true (surfaced pn sn (Py.strip line)) w)
       | Continue =>
           bind (read_stream pn sn rest)
                (fun cs => ret (spec_category line :: cs))
                (monitor_effect false (surfaced pn sn (Py.strip line)) w)
       end.
Proof.
  cbn [read_stream].
  destruct (negb (Py.truthy line)); [reflexivity|].
  destruct (negb (Py.truthy (Py.strip line))); [reflexivity|].
  unfold bind at 1. rewrite handle_line_run, spec_category_strip.
  destruct (spec_category line); reflexivity.
Qed.

Lemma disconnect_only_last_cons c tr :
  is_disconnect c = false ->
  disconnect_only_last tr = true ->
  disconnect_only_last (c :: tr) = true.
Proof.
  intros Hc Htr. destruct tr as [|d tr]; [reflexivity|].
  change (negb (is_disconnect c) && disconnect_only_last (d :: tr) = true).
  rewrite Hc, Htr. reflexivity.
Qed.

(** A monitor always returns; what it does to the world does not depend on
    the world it starts from. *)
Lemma read_stream_summary pn sn stream :
  exists tr raised out,
    (forall w, read_stream pn sn stream w
               = (Ret tr, monitor_effect raised out w))
    /\ disconnect_only_last tr = true
    /\ raised = existsb is_disconnect tr.
Proof.
  induction stream as [|ev rest IH].
  - exists [], false, []. repeat split.
    intro w. cbn. rewrite monitor_effect_id. reflexivity.
  - destruct ev as [line|msg].
    + destruct IH as (tr & raised & out & Hrun & Hlast & Hraised).
      destruct (Py.truthy line) eqn:Hl.
      2:{ exists [], false, []. repeat split. intro w.
          rewrite read_stream_cons_line, Hl. cbn.
          rewrite monitor_effect_id. reflexivity. }
      destruct (Py.truthy (Py.strip line)) eqn:Hs.
      2:{ exists tr, raised, out. repeat split; auto. intro w.
          rewrite read_stream_cons_line, Hl, Hs. cbn. apply Hrun. }
      destruct (is_disconnect (spec_category line)) eqn:Hc.
      * exists [spec_category line], true, (surfaced pn sn (Py.strip line)).
        repeat split.
        -- intro w. rewrite read_stream_cons_line, Hl, Hs. cbn.
           destruct (spec_category line); try discriminate. reflexivity.
        -- cbn. rewrite Hc. reflexivity.
      * exists (spec_category line :: tr), raised,
          (surfaced pn sn (Py.strip line) ++ out).
        repeat split.
        -- intro w. rewrite read_stream_cons_line, Hl, Hs. cbn.
           destruct (spec_category line) eqn:E; try discriminate;
             cbn; unfold bind; rewrite Hrun, monitor_effect_comp;
             reflexivity.
        -- apply disconnect_only_last_cons; assumption.
        -- cbn. rewrite Hc. exact Hraised.
    + exists [], false, [read_error_log pn sn msg]. repeat split.
      intro w. cbn -[Py.fstr]. unfold bind, print, ret.
      rewrite monitor_effect_print. reflexivity.
Qed.

Lemma disconnect_only_last_split tr :
  disconnect_only_last tr = true ->
  forall pre post, tr = pre ++ Disconnect :: post -> post = [].
Proof.
  induction tr as [|c tr IH]; intros Hok pre post Heq.
  - destruct pre; discriminate.
  - destruct tr as [|d tr].
    + destruct pre as [|x pre]; [inversion Heq; reflexivity|].
      destruct pre; discriminate.
    + change (negb (is_disconnect c) && disconnect_only_last (d :: tr) = true)
        in Hok.
      apply andb_true_iff in Hok. destruct Hok as [Hc Hrest].
      destruct pre as [|x pre].
      * inversion Heq; subst. discriminate.
      * inversion Heq; subst. eapply IH; eauto.
Qed.

Lemma disconnect_only_last_count tr :
  disconnect_only_last tr = true ->
  List.length (filter is_disconnect tr) <= 1.
Proof.
  induction tr as [|c tr IH]; intro Hok; [cbn; lia|].
  destruct tr as [|d tr].
  - cbn. destruct (is_disconnect c); cbn; lia.
  - change (negb (is_disconnect c) && disconnect_only_last (d :: tr) = true)
      in Hok.
    apply andb_true_iff in Hok. destruct Hok as [Hc Hrest].
    apply negb_true_iff in Hc.
    cbn [filter]. rewrite Hc. apply IH, Hrest.
Qed.

Lemma existsb_is_disconnect tr :
  existsb is_disconnect tr = true <-> In Disconnect tr.
Proof.
  rewrite existsb_exists. split.
  - intros (c & Hin & Hc). destruct c; try discriminate. exact Hin.
  - intro Hin. exists Disconnect. split; [exact Hin | reflexivity].
Qed.

(** Nothing after a line that matches the disconnection pattern matters. *)
Lemma read_stream_stops pn sn line post :
  disconnection_pattern line = true ->
  forall pre w,
    read_stream pn sn (pre ++ ReadLine line :: post) w
    = read_stream pn sn (pre ++ [ReadLine line]) w.
Proof.
  intro Hpat.
  destruct (disconnection_pattern_truthy line Hpat) as [Hl Hs].
  apply spec_category_disconnect in Hpat.
  induction pre as [|ev pre IH]; intro w.
  - cbn [app]. rewrite !read_stream_cons_line, Hl, Hs, Hpat. reflexivity.
  - destruct ev as [l|msg]; [|reflexivity].
    cbn [app]. rewrite !read_stream_cons_line.
    destruct (negb (Py.truthy l)); [reflexivity|].
    destruct (negb (Py.truthy (Py.strip l))); [apply IH|].
    destruct (control_of (spec_category l)); [|reflexivity].
    unfold bind. rewrite IH. reflexivity.
Qed.

(** When only lines precede it, a matching line (or an earlier one) is
    reached and classified. *)
Lemma read_stream_reaches pn sn line post :
  disconnection_pattern line = true ->
  forall pre w,
    all_lines pre = true ->
    exists tr w',
      read_stream pn sn (pre ++ ReadLine line :: post) w = (Ret tr, w')
      /\ In Disconnect tr.
Proof.
  intro Hpat.
  destruct (disconnection_pattern_truthy line Hpat) as [Hl Hs].
  apply spec_category_disconnect in Hpat.
  induction pre as [|ev pre IH]; intros w Hpre.
  - cbn [app]. rewrite read_stream_cons_line, Hl, Hs, Hpat. cbn.
    eexists _, _. split; [reflexivity | left; reflexivity].
  - destruct ev as [l|msg]; [|discriminate].
    cbn in Hpre. apply andb_true_iff in Hpre. destruct Hpre as [Hl' Hpre].
    cbn [app]. rewrite read_stream_cons_line, Hl'. cbn [negb].
    destruct (Py.truthy (Py.strip l)); cbn [negb].
    + destruct (spec_category l) eqn:E; cbn [control_of].
      * eexists _, _. split; [reflexivity | left; reflexivity].
      * destruct (IH (monitor_effect false (surfaced pn sn (Py.strip l)) w) Hpre)
          as (tr & w' & Hrun & Hin).
        unfold bind. rewrite Hrun. eexists _, _.
        split; [reflexivity | right; exact Hin].
      * destruct (IH (monitor_effect false (surfaced pn sn (Py.strip l)) w) Hpre)
          as (tr & w' & Hrun & Hin).
        unfold bind. rewrite Hrun. eexists _, _.
        split; [reflexivity | right; exact Hin].
      * destruct (IH (monitor_effect false (surfaced pn sn (Py.strip l)) w) Hpre)
          as (tr & w' & Hrun & Hin).
        unfold bind. rewrite Hrun. eexists _, _.
        split; [reflexivity | right; exact Hin].
    + apply IH, Hpre.
Qed.

Lemma monitor_effect_log out w :
  monitor_effect false out w = set_stdout (stdout w ++ out) w.
Proof.
  destruct w. unfold monitor_effect, set_stdout. cbn.
  rewrite orb_false_r. reflexivity.
Qed.

(** A failed read that the monitor reaches is logged, and that is all. *)
Lemma read_stream_error_reached pn sn msg post :
  forall pre,
    passes_through pre = true ->
    exists tr out,
      (forall w, read_stream pn sn (pre ++ ReadError msg :: post) w
                 = (Ret tr,
                    monitor_effect false (out ++ [read_error_log pn sn msg]) w))
      /\ ~ In Disconnect tr.
Proof.
  induction pre as [|ev pre IH]; intro Hpre.
  - exists [], []. split; [|intros []].
    intro w. cbn -[Py.fstr]. unfold bind, print, ret.
    rewrite monitor_effect_print. reflexivity.
  - destruct ev as [l|m]; [|discriminate].
    cbn in Hpre. apply andb_true_iff in Hpre. destruct Hpre as [Hl Hpre].
    apply andb_true_iff in Hl. destruct Hl as [Hl Hnd].
    apply negb_true_iff in Hnd.
    destruct (IH Hpre) as (tr & out & Hrun & Hno).
    destruct (Py.truthy (Py.strip l)) eqn:Hs.
    + assert (Hc : control_of (spec_category l) = Continue
                   /\ spec_category l <> Disconnect).
      { destruct (spec_category l) eqn:E; cbn; try (split; congruence).
        apply spec_category_disconnect in E. congruence. }
      destruct Hc as [Hc Hne].
      exists (spec_category l :: tr), (surfaced pn sn (Py.strip l) ++ out).
      split.
      * intro w. cbn [app]. rewrite read_stream_cons_line, Hl, Hs, Hc.
        cbn [negb]. unfold bind. rewrite Hrun, monitor_effect_comp.
        cbn [orb ret]. rewrite <- app_assoc. reflexivity.
      * intros [Hin|Hin]; [congruence | exact (Hno Hin)].
    + exists tr, out. split; [|exact Hno].
      intro w. cbn [app]. rewrite read_stream_cons_line, Hl, Hs.
      cbn [negb]. apply Hrun.
Qed.

End MonitorFacts.

Import PyFacts MonitorFacts.

(** C3. For every sequence of reads fed to one stream monitor, at most one
    line is ever classified as disconnect, and it is the last one
    classified; when a line matches the disconnection pattern, nothing that
    follows it in the stream matters to the run (no later line is
    classified), and, the reads before it being lines, the run does
    classify a disconnect and leaves the DisconnectionSignal set. *)
Theorem monitor_stops_at_first_disconnect :
  forall pn sn stream w,
  exists tr w',
    read_stream pn sn stream w = (Ret tr, w')
    /\ List.length (filter is_disconnect tr) <= 1
    /\ (forall before after, tr = before ++ Disconnect :: after ->
          after = [] /\ device_disconnected w' = true)
    /\ (forall pre line post,
          stream = pre ++ ReadLine line :: post ->
          disconnection_pattern line = true ->
          read_stream pn sn (pre ++ [ReadLine line]) w = (Ret tr, w')
          /\ (all_lines pre = true ->
              In Disconnect tr /\ device_disconnected w' = true)).
Proof.
  intros pn sn stream w.
  destruct (read_stream_summary pn sn stream)
    as (tr & raised & out & Hrun & Hlast & Hraised).
  assert (Hset : In Disconnect tr ->
                 device_disconnected (monitor_effect raised out w) = true).
  { intro Hin. apply existsb_is_disconnect in Hin.
    cbn. rewrite Hraised, Hin. apply orb_true_r. }
  exists tr, (monitor_effect raised out w).
  split; [apply Hrun|].
  split; [apply disconnect_only_last_count, Hlast|].
  split.
  - intros before after Heq. split.
    + eapply disconnect_only_last_split; eauto.
    + apply Hset. rewrite Heq. apply in_or_app. right. left. reflexivity.
  - intros pre line post Hstream Hpat. subst stream. split.
    + rewrite <- (read_stream_stops pn sn line post Hpat pre w). apply Hrun.
    + intro Hpre.
      destruct (read_stream_reaches pn sn line post Hpat pre w Hpre)
        as (tr' & w' & Hrun' & Hin).
      rewrite Hrun in Hrun'. inversion Hrun'; subst tr'.
      split; [exact Hin | apply Hset, Hin].
Qed.

Lemma monitor_stops_at_first_disconnect_witness :
  exists tr w',
    read_stream "Video" "stderr" sample_stream (initial_world []) = (Ret tr, w')
    /\ In Disconnect tr /\ device_disconnected w' = true
    /\ read_stream "Video" "stderr" (firstn 2 sample_stream) (initial_world [])
       = (Ret tr, w').
Proof.
  destruct (monitor_stops_at_first_disconnect
              "Video" "stderr" sample_stream (initial_world []))
    as (tr & w' & Hrun & _ & _ & Hstop).
  exists tr, w'.
  destruct (Hstop [ReadLine (Py.fstr ["INFO: Device: [Google] Pixel"; Py.nl])]
                  (Py.fstr ["WARN: Device disconnected"; Py.nl])
                  [ReadLine (Py.fstr ["ERROR: Server connection failed"; Py.nl])]
                  eq_refl eq_refl) as [Hcut Hreach].
  destruct (Hreach eq_refl) as [Hin Hset].
  repeat split; assumption.
Defined.

(** C5. For every line a monitor reads, classification follows the stated
    priority order ([spec_category]: the disconnection pattern first, then
    any fatal-error marker, then a warning marker without the disconnect
    marker, info for all the rest); a blank line is not classified, and an
    info line produces no output and changes nothing. *)
Theorem classification_follows_priority :
  forall pn sn line w,
    Py.truthy line = true ->
    exists w',
      read_stream pn sn [ReadLine line] w
      = (Ret (if Py.truthy (Py.strip line) then [spec_category line] else []),
         w')
      /\ (disconnection_pattern line = true -> spec_category line = Disconnect)
      /\ (disconnection_pattern line = false -> has_fatal_marker line = true ->
          spec_category line = FatalError)
      /\ (disconnection_pattern line = false -> has_fatal_marker line = false ->
          has_warning_marker line = true -> has_disconnect_marker line = false ->
          spec_category line = Warning)
      /\ (spec_category line = Info -> w' = w)
      /\ (spec_category line <> Info ->
          exists shown, stdout w' = stdout w ++ [shown]).
Proof.
  intros pn sn line w Hl.
  assert (Hcases :
    (disconnection_pattern line = true -> spec_category line = Disconnect)
    /\ (disconnection_pattern line = false -> has_fatal_marker line = true ->
        spec_category line = FatalError)
    /\ (disconnection_pattern line = false -> has_fatal_marker line = false ->
        has_warning_marker line = true -> has_disconnect_marker line = false ->
        spec_category line = Warning)).
  { unfold spec_category. repeat split.
    - intros ->. reflexivity.
    - intros -> ->. reflexivity.
    - intros -> -> -> ->. reflexivity. }
  destruct Hcases as (H1 & H2 & H3).
  rewrite read_stream_cons_line, Hl. cbn [negb].
  destruct (Py.truthy (Py.strip line)) eqn:Hs; cbn [negb].
  - unfold surfaced. rewrite spec_category_strip.
    destruct (spec_category line) eqn:E; cbn [control_of];
      eexists; (split; [cbn; reflexivity|]);
      (split; [exact H1|]); (split; [exact H2|]); (split; [exact H3|]);
      (split; [intro; try discriminate; apply monitor_effect_id
              | intro Hne; try congruence; eexists; cbn; reflexivity]).
  - exists w. split; [reflexivity|].
    split; [exact H1|]. split; [exact H2|]. split; [exact H3|].
    split; [reflexivity|].
    intro Hne. elim Hne. apply spec_category_blank, Hs.
Qed.

Lemma classification_follows_priority_witness :
  exists w',
    read_stream "Audio" "stdout"
      [ReadLine (Py.fstr ["ERROR: Server connection failed"; Py.nl])]
      (initial_world [])
    = (Ret [FatalError], w')
    /\ exists shown, stdout w' = [shown].
Proof.
  destruct (classification_follows_priority "Audio" "stdout"
              (Py.fstr ["ERROR: Server connection failed"; Py.nl])
              (initial_world []) eq_refl)
    as (w' & Hrun & _ & Hfatal & _ & _ & Hshown).
  exists w'. split.
  - exact Hrun.
  - apply Hshown. rewrite (Hfatal eq_refl eq_refl). discriminate.
Defined.

(** C7. For every stream monitor, an I/O error raised by a read it reaches
    terminates only that monitor: the monitor returns normally, the error
    entry is the last thing it logs, and the log is the only part of the
    shared world it has changed (the DisconnectionSignal, the process
    registry and everything the supervision loop reads are as before); any
    other monitor run afterwards classifies and signals exactly as it would
    have without the failure. *)
Theorem read_error_ends_only_its_monitor :
  forall pn sn pre msg post w,
    passes_through pre = true ->
    exists tr out,
      let w' := set_stdout (stdout w ++ out ++ [read_error_log pn sn msg]) w in
      read_stream pn sn (pre ++ ReadError msg :: post) w = (Ret tr, w')
      /\ ~ In Disconnect tr
      /\ device_disconnected w' = device_disconnected w
      /\ forall pn2 sn2 stream2,
           fst (read_stream pn2 sn2 stream2 w')
           = fst (read_stream pn2 sn2 stream2 w)
           /\ device_disconnected (snd (read_stream pn2 sn2 stream2 w'))
              = device_disconnected (snd (read_stream pn2 sn2 stream2 w)).
Proof.
  intros pn sn pre msg post w Hpre.
  destruct (read_stream_error_reached pn sn msg post pre Hpre)
    as (tr & out & Hrun & Hno).
  exists tr, out. cbn zeta.
  split; [rewrite Hrun, monitor_effect_log; reflexivity|].
  split; [exact Hno|].
  split; [reflexivity|].
  intros pn2 sn2 stream2.
  destruct (read_stream_summary pn2 sn2 stream2)
    as (tr2 & raised2 & out2 & Hrun2 & _ & _).
  rewrite !Hrun2. split; reflexivity.
Qed.

Lemma read_error_ends_only_its_monitor_witness :
  exists tr out,
    read_stream "Audio" "stdout"
      (sample_quiet_lines ++ [ReadError "I/O operation on closed file"])
      (initial_world [])
    = (Ret tr,
       set_stdout
         (out ++ [read_error_log "Audio" "stdout" "I/O operation on closed file"])
         (initial_world []))
    /\ ~ In Disconnect tr.
Proof.
  destruct (read_error_ends_only_its_monitor "Audio" "stdout"
              sample_quiet_lines "I/O operation on closed file" []
              (initial_world []) eq_refl)
    as (tr & out & Hrun & Hno & _).
  exists tr, out. split; [exact Hrun | exact Hno].
Defined.

(** C8, as stated, fails on a disconnect line: what is shown names the
    process but not the stream. *)
Lemma disconnect_line_lacks_stream_kind :
  fst (handle_line "Video" "stderr" "WARN: Device disconnected"
         (initial_world []))
  = Ret (Disconnect, Return)
  /\ stdout (snd (handle_line "Video" "stderr" "WARN: Device disconnected"
                   (initial_world [])))
     = ["[!] Video: Device disconnected detected!"]
  /\ Py.contains "stderr" "[!] Video: Device disconnected detected!" = false.
Proof. repeat split. Qed.

(** C8, amended. Every line surfaced for the fatal-error and warning
    categories is tagged with both the source process name and the stream
    kind; the line surfaced for the disconnect category is one of two fixed
    messages tagged with the process name only; an info line surfaces
    nothing. *)
Theorem surfaced_lines_are_tagged :
  forall pn sn line_str w,
  exists w',
    handle_line pn sn line_str w
    = (Ret (spec_category line_str, control_of (spec_category line_str)), w')
    /\ match spec_category line_str with
       | FatalError | Warning =>
           exists shown,
             stdout w' = stdout w ++ [shown]
             /\ Py.contains pn shown = true
             /\ Py.contains sn shown = true
       | Disconnect =>
           exists shown,
             stdout w' = stdout w ++ [shown]
             /\ Py.contains pn shown = true
             /\ (shown = Py.fstr ["[!] "; pn; ": Device disconnected detected!"]
                 \/ shown = Py.fstr ["[!] "; pn; ": No ADB device found!"])
       | Info => stdout w' = stdout w
       end.
Proof.
  intros pn sn s w. eexists. split; [apply handle_line_run|].
  unfold surfaced.
  destruct (spec_category s); cbn [monitor_effect stdout].
  - eexists. split; [reflexivity|]. split.
    + apply (contains_piece pn ["[!] "]).
    + destruct (link_lost s); [left | right]; reflexivity.
  - eexists. split; [reflexivity|]. split.
    + apply (contains_piece pn ["[!] "]).
    + apply (contains_piece sn ["[!] "; pn; " ("]).
  - eexists. split; [reflexivity|]. split.
    + apply (contains_piece pn ["[W] "]).
    + apply (contains_piece sn ["[W] "; pn; " ("]).
  - apply app_nil_r.
Qed.

(* ================================================================== *)
(** * Teardown                                                          *)
(* ================================================================== *)

Module CleanupFacts.

Lemma terminate_one_run e p w :
  terminate_one e p w
  = (Ret tt, set_effects (effects w ++ requests_one e p) w).
Proof.
  unfold terminate_one, requests_one, try_except_all, bind, emit, raise, ret.
  destruct w.
  destruct (terminate_raises e p), (wait_timeout e p), (kill_raises e p);
    cbn; unfold set_effects; cbn; rewrite <- ?app_assoc; reflexivity.
Qed.

Lemma set_effects_twice a b w :
  set_effects (effects (set_effects (effects w ++ a) w) ++ b)
              (set_effects (effects w ++ a) w)
  = set_effects (effects w ++ a ++ b) w.
Proof. destruct w. unfold set_effects. cbn. rewrite app_assoc. reflexivity. Qed.

Lemma set_effects_same w : set_effects (effects w ++ []) w = w.
Proof. destruct w. unfold set_effects. cbn. rewrite app_nil_r. reflexivity. Qed.

Lemma for_each_terminate e ps :
  forall w,
    for_each ps (terminate_one e) w
    = (Ret tt, set_effects (effects w ++ flat_map (requests_one e) ps) w).
Proof.
  induction ps as [|p ps IH]; intro w.
  - cbn. rewrite set_effects_same. reflexivity.
  - cbn [for_each flat_map]. unfold bind.
    rewrite terminate_one_run, IH, set_effects_twice. reflexivity.
Qed.

(** The last loop of [cleanup] never raises and only sends requests. *)
Lemma terminate_tracked_run e w :
  terminate_tracked e w
  = (Ret tt,
     set_effects (effects w ++ flat_map (requests_one e) (scrcpy_processes w)) w).
Proof.
  unfold terminate_tracked, bind, get. apply for_each_terminate.
Qed.

Lemma threads_dead e ts w :
  forallb (fun t => negb (thread_alive e t)) ts = true ->
  for_each ts (fun t => if thread_alive e t then set_daemon t else ret tt) w
  = (Ret tt, w).
Proof.
  induction ts as [|t ts IH]; intro H; [reflexivity|].
  cbn in H. apply andb_true_iff in H. destruct H as [Ht Hts].
  apply negb_true_iff in Ht.
  cbn [for_each]. unfold bind. rewrite Ht. cbn. apply IH, Hts.
Qed.

Lemma threads_alive e ts w :
  forallb (fun t => negb (thread_alive e t)) ts = false ->
  for_each ts (fun t => if thread_alive e t then set_daemon t else ret tt) w
  = (Raise (RuntimeError "cannot set daemon status of active thread"), w).
Proof.
  induction ts as [|t ts IH]; intro H; [discriminate|].
  cbn in H. cbn [for_each]. unfold bind.
  destruct (thread_alive e t); [reflexivity|].
  cbn in *. apply IH, H.
Qed.

(** With every monitoring thread finished, [cleanup] runs to its end. *)
Lemma cleanup_run e w :
  no_thread_alive e w = true ->
  cleanup e w = (Ret tt, cleanup_world e w).
Proof.
  intro Hdead. unfold no_thread_alive in Hdead.
  unfold cleanup. unfold bind at 1. cbn [print].
  unfold bind at 1. cbn [get].
  unfold bind at 1.
  rewrite threads_dead by exact Hdead.
  unfold cleanup_world, unload_log, remove_log, unload_requests,
    remove_requests, pipe_left, log_of, guarded_call, try_except_Exception.
  destruct w as [mid procs threads dd pipe keys out effs].
  destruct mid as [m|]; [destruct (Py.truthy m) eqn:Hm|];
    destruct (unload_error e); destruct pipe; destruct (remove_error e);
    destruct (pkill_error e);
    cbn -[Py.fstr flat_map terminate_tracked Py.truthy];
    rewrite ?Hm;
    cbn -[Py.fstr flat_map terminate_tracked Py.truthy];
    rewrite terminate_tracked_run;
    unfold set_effects; cbn -[Py.fstr flat_map];
    rewrite <- ?app_assoc; cbn -[Py.fstr flat_map]; reflexivity.
Qed.

(** With a monitoring thread still alive, [cleanup] stops at the daemon
    flag: no teardown step is attempted. *)
Lemma cleanup_thread_alive e w :
  no_thread_alive e w = false ->
  cleanup e w
  = (Raise (RuntimeError "cannot set daemon status of active thread"),
     set_stdout (stdout w ++ [banner]) w).
Proof.
  intro Halive. unfold no_thread_alive in Halive.
  unfold cleanup. unfold bind at 1. cbn [print].
  unfold bind at 1. cbn [get].
  unfold bind at 1.
  rewrite threads_alive by exact Halive. reflexivity.
Qed.

Lemma cleanup_completed e w w1 :
  cleanup e w = (Ret tt, w1) ->
  no_thread_alive e w = true /\ w1 = cleanup_world e w.
Proof.
  intro H. destruct (no_thread_alive e w) eqn:Hdead.
  - rewrite cleanup_run in H by exact Hdead. inversion H. auto.
  - rewrite cleanup_thread_alive in H by exact Hdead. discriminate.
Qed.

End CleanupFacts.

Import CleanupFacts.

(** C1, as stated, fails: there is no already-run guard.  After a first
    call has completed, a second call prints the banner again, retries the
    module unload, re-issues the pattern-kill and asks both tracked
    processes to terminate again. *)
Lemma second_cleanup_repeats_teardown :
  fst (cleanup quiet_env running_world) = Ret tt
  /\ fst (cleanup quiet_env after_first_cleanup) = Ret tt
  /\ effects after_first_cleanup
     = [PactlUnload "42"; RemovePipe; Pkill;
        Terminate 101; Wait 101; Terminate 102; Wait 102]
  /\ effects (snd (cleanup quiet_env after_first_cleanup))
     = [PactlUnload "42"; RemovePipe; Pkill;
        Terminate 101; Wait 101; Terminate 102; Wait 102;
        PactlUnload "42"; Pkill;
        Terminate 101; Wait 101; Terminate 102; Wait 102]
  /\ stdout (snd (cleanup quiet_env after_first_cleanup)) = [banner; banner].
Proof. repeat split. Qed.

(** C1, amended. [cleanup] has no already-run guard: after one call has
    completed, a second sequential call in which no monitoring thread is
    alive completes too and repeats the teardown.  The first call clears
    neither the recorded module id nor the process registry, so the second
    prints the banner, retries the module unload when an id is recorded,
    re-issues the pattern-kill and again requests termination of every
    tracked process; the pipe removal alone is skipped, exactly when the
    path no longer exists. *)
Theorem second_cleanup_runs_again :
  forall e1 e2 w w1,
    cleanup e1 w = (Ret tt, w1) ->
    no_thread_alive e2 w = true ->
    exists w2,
      cleanup e2 w1 = (Ret tt, w2)
      /\ MODULE_ID w1 = MODULE_ID w
      /\ scrcpy_processes w1 = scrcpy_processes w
      /\ effects w2
         = effects w1 ++ unload_requests w ++ remove_requests w1
                      ++ Pkill :: flat_map (requests_one e2) (scrcpy_processes w)
      /\ (exists log, stdout w2 = stdout w1 ++ banner :: log)
      /\ (pipe_exists w1 = true <->
          pipe_exists w = true /\ remove_error e1 <> None).
Proof.
  intros e1 e2 w w1 Hfirst Hdead.
  destruct (cleanup_completed e1 w w1 Hfirst) as [_ ->].
  exists (cleanup_world e2 (cleanup_world e1 w)).
  split; [apply cleanup_run; exact Hdead|].
  split; [reflexivity|]. split; [reflexivity|].
  split; [reflexivity|].
  split; [eexists; reflexivity|].
  cbn. unfold pipe_left. destruct (pipe_exists w), (remove_error e1);
    cbn; split; intros; try discriminate; try tauto.
  split; [reflexivity | discriminate].
Qed.

Lemma second_cleanup_runs_again_witness :
  exists w2,
    cleanup stubborn_env (cleanup_world quiet_env running_world) = (Ret tt, w2)
    /\ effects w2
       = effects (cleanup_world quiet_env running_world)
         ++ [PactlUnload "42"; Pkill;
             Terminate 101; Wait 101; Terminate 102; Wait 102; Kill 102].
Proof.
  destruct (second_cleanup_runs_again quiet_env stubborn_env running_world
              (cleanup_world quiet_env running_world) eq_refl eq_refl)
    as (w2 & Hrun & _ & _ & Heff & _).
  exists w2. split; [exact Hrun | exact Heff].
Defined.

(** C2, as stated, fails: the loop over the tracked processes leaves the
    registry as it found it, here with both handles still in it. *)
Lemma terminate_tracked_keeps_registry :
  fst (terminate_tracked stubborn_env running_world) = Ret tt
  /\ scrcpy_processes (snd (terminate_tracked stubborn_env running_world))
     = [101; 102]
  /\ effects (snd (terminate_tracked stubborn_env running_world))
     = [Terminate 101; Wait 101; Terminate 102; Wait 102; Kill 102].
Proof. repeat split. Qed.

Lemma flat_map_filter_length {A B} (f : A -> list B) (keep : B -> bool) n :
  forall l,
    (forall x, In x l -> List.length (filter keep (f x)) = n x) ->
    List.length (filter keep (flat_map f l))
    = list_sum (map n l).
Proof.
  induction l as [|x l IH]; intro H; [reflexivity|].
  transitivity (n x + list_sum (map n l)); [|reflexivity].
  cbn [flat_map]. rewrite filter_app, length_app.
  rewrite (H x (or_introl eq_refl)), IH; [reflexivity|].
  intros y Hy. apply H. right. exact Hy.
Qed.

Lemma list_sum_indicator {A} (keep : A -> bool) (l : list A) :
  list_sum (map (fun x => if keep x then 1 else 0) l)
  = List.length (filter keep l).
Proof.
  induction l as [|x l IH]; [reflexivity|].
  transitivity ((if keep x then 1 else 0) + List.length (filter keep l)).
  - rewrite <- IH. reflexivity.
  - cbn [filter]. destruct (keep x); reflexivity.
Qed.

Lemma list_sum_ones {A} (l : list A) :
  list_sum (map (fun _ => 1) l) = List.length l.
Proof.
  induction l as [|x l IH]; [reflexivity|].
  transitivity (1 + List.length l); [rewrite <- IH|]; reflexivity.
Qed.

(** C2, amended. For every registry of K tracked processes of which J do
    not exit within the grace period, and no termination request itself
    raising, the terminate-all step of [cleanup] returns normally whatever
    the processes do, sends one graceful termination request to every
    tracked process (K in all), issues exactly J force-kill requests, those
    for the processes that did not exit in time, and leaves the registry
    unchanged: it only sends requests. *)
Theorem terminate_tracked_kills_stragglers :
  forall e w,
    (forall p, In p (scrcpy_processes w) -> terminate_raises e p = false) ->
    exists reqs,
      terminate_tracked e w = (Ret tt, set_effects (effects w ++ reqs) w)
      /\ (forall p, In p (scrcpy_processes w) -> In (Terminate p) reqs)
      /\ List.length (filter is_terminate reqs)
         = List.length (scrcpy_processes w)
      /\ List.length (filter is_kill reqs)
         = List.length (filter (wait_timeout e) (scrcpy_processes w))
      /\ (forall p, In (Kill p) reqs <->
                    In p (scrcpy_processes w) /\ wait_timeout e p = true)
      /\ scrcpy_processes (snd (terminate_tracked e w)) = scrcpy_processes w.
Proof.
  intros e w Hterm.
  exists (flat_map (requests_one e) (scrcpy_processes w)).
  rewrite terminate_tracked_run.
  split; [reflexivity|].
  split.
  { intros p Hp. apply in_flat_map. exists p. split; [exact Hp|].
    left. reflexivity. }
  split.
  { rewrite (flat_map_filter_length _ _ (fun _ => 1)).
    - apply list_sum_ones.
    - intros p Hp. unfold requests_one. rewrite (Hterm p Hp).
      destruct (wait_timeout e p); reflexivity. }
  split.
  { rewrite (flat_map_filter_length _ _
               (fun p => if wait_timeout e p then 1 else 0)).
    - apply list_sum_indicator.
    - intros p Hp. unfold requests_one. rewrite (Hterm p Hp).
      destruct (wait_timeout e p); reflexivity. }
  split; [|reflexivity].
  intro p. rewrite in_flat_map. split.
  - intros (q & Hq & Hin). unfold requests_one in Hin.
    rewrite (Hterm q Hq) in Hin.
    destruct (wait_timeout e q) eqn:Hw; cbn in Hin;
      repeat (destruct Hin as [Hin|Hin]; try discriminate);
      try contradiction.
    inversion Hin; subst. auto.
  - intros [Hp Hw]. exists p. split; [exact Hp|].
    unfold requests_one. rewrite (Hterm p Hp), Hw. cbn. auto.
Qed.

Lemma terminate_tracked_kills_stragglers_witness :
  exists reqs,
    terminate_tracked stubborn_env running_world
    = (Ret tt, set_effects reqs running_world)
    /\ List.length (filter is_kill reqs) = 1.
Proof.
  destruct (terminate_tracked_kills_stragglers stubborn_env running_world
              (fun p _ => eq_refl))
    as (reqs & Hrun & _ & _ & Hkills & _).
  exists reqs. split; [exact Hrun | exact Hkills].
Defined.

(** C6, as stated, fails on its "caught and logged": when every request to
    the tracked processes raises, [cleanup] still completes, and the banner
    is all it has printed. *)
Lemma tracked_process_failures_are_silent :
  fst (cleanup hostile_env running_world) = Ret tt
  /\ effects (snd (cleanup hostile_env running_world))
     = [PactlUnload "42"; RemovePipe; Pkill;
        Terminate 101; Kill 101; Terminate 102; Kill 102]
  /\ stdout (snd (cleanup hostile_env running_world)) = [banner].
Proof. repeat split. Qed.

(** C6, amended. When no monitoring thread is still alive, then for every
    combination of individual step failures [cleanup] returns normally
    having attempted all four teardown steps: the module unload if a
    non-empty id is recorded, the pipe removal if the path exists, the
    pattern-kill, and a termination request for every tracked process
    (followed by a kill where that request or the bounded wait raised).  A
    failure of one of the first three steps is caught and logged within the
    step; a failure in the tracked-process step is caught without a log
    entry; none prevents the remaining steps. *)
Theorem cleanup_attempts_every_step :
  forall e w,
    no_thread_alive e w = true ->
    exists w' reqs log,
      cleanup e w = (Ret tt, w')
      /\ effects w' = effects w ++ reqs
      /\ stdout w' = stdout w ++ banner :: log
      /\ (forall m, MODULE_ID w = Some m -> Py.truthy m = true ->
            In (PactlUnload m) reqs
            /\ forall msg, unload_error e = Some msg ->
                           In (unload_failure msg) log)
      /\ (pipe_exists w = true ->
            In RemovePipe reqs
            /\ forall msg, remove_error e = Some msg ->
                           In (remove_failure msg) log)
      /\ (In Pkill reqs
          /\ forall msg, pkill_error e = Some msg -> In (pkill_failure msg) log)
      /\ (forall p, In p (scrcpy_processes w) ->
            In (Terminate p) reqs
            /\ (terminate_raises e p = true \/ wait_timeout e p = true ->
                In (Kill p) reqs))
      /\ (forall entry, In entry log ->
            exists msg, entry = unload_failure msg
                        \/ entry = remove_failure msg
                        \/ entry = pkill_failure msg).
Proof.
  intros e w Hdead.
  exists (cleanup_world e w),
    (unload_requests w ++ remove_requests w
       ++ Pkill :: flat_map (requests_one e) (scrcpy_processes w)),
    (unload_log e w ++ remove_log e w ++ log_of (pkill_error e) pkill_failure).
  split; [apply cleanup_run, Hdead|].
  split; [reflexivity|]. split; [reflexivity|].
  split.
  { intros m Hm Ht. unfold unload_log, unload_requests. rewrite Hm, Ht. split.
    - left. reflexivity.
    - intros msg ->. left. reflexivity. }
  split.
  { intro Hp. unfold remove_log, remove_requests. rewrite Hp. split.
    - apply in_or_app. right. left. reflexivity.
    - intros msg ->. apply in_or_app. right. left. reflexivity. }
  split.
  { split.
    - apply in_or_app. right. apply in_or_app. right. left. reflexivity.
    - intros msg ->. apply in_or_app. right. apply in_or_app. right.
      left. reflexivity. }
  split.
  { intros p Hp.
    assert (Hsub : forall x, In x (requests_one e p) ->
              In x (unload_requests w ++ remove_requests w
                      ++ Pkill :: flat_map (requests_one e) (scrcpy_processes w))).
    { intros x Hx. apply in_or_app. right. apply in_or_app. right. right.
      apply in_flat_map. exists p. auto. }
    split.
    - apply Hsub. left. reflexivity.
    - intro Hfail. apply Hsub. unfold requests_one.
      destruct (terminate_raises e p); [right; left; reflexivity|].
      destruct Hfail as [Hfail|Hfail]; [discriminate|].
      rewrite Hfail. right. right. left. reflexivity. }
  intros entry Hin.
  apply in_app_or in Hin. destruct Hin as [Hin|Hin].
  { unfold unload_log, log_of in Hin.
    destruct (unload_requests w); [contradiction|].
    destruct (unload_error e) as [msg|]; [|contradiction].
    destruct Hin as [<-|[]]. exists msg. auto. }
  apply in_app_or in Hin. destruct Hin as [Hin|Hin].
  { unfold remove_log, log_of in Hin.
    destruct (pipe_exists w); [|contradiction].
    destruct (remove_error e) as [msg|]; [|contradiction].
    destruct Hin as [<-|[]]. exists msg. auto. }
  unfold log_of in Hin.
  destruct (pkill_error e) as [msg|]; [|contradiction].
  destruct Hin as [<-|[]]. exists msg. auto.
Qed.

Lemma cleanup_attempts_every_step_witness :
  exists w' reqs log,
    cleanup hostile_env running_world = (Ret tt, w')
    /\ effects w' = reqs
    /\ stdout w' = banner :: log
    /\ In (PactlUnload "42") reqs /\ In RemovePipe reqs /\ In Pkill reqs
    /\ In (Kill 101) reqs /\ In (Kill 102) reqs.
Proof.
  destruct (cleanup_attempts_every_step hostile_env running_world eq_refl)
    as (w' & reqs & log & Hrun & Heff & Hout & Hunload & Hpipe & Hpkill
        & Hprocs & _).
  exists w', reqs, log.
  split; [exact Hrun|]. split; [exact Heff|]. split; [exact Hout|].
  split; [apply (Hunload "42" eq_refl eq_refl)|].
  split; [apply (Hpipe eq_refl)|].
  split; [apply Hpkill|].
  split.
  - apply (Hprocs 101); [left; reflexivity | left; reflexivity].
  - apply (Hprocs 102); [right; left; reflexivity | left; reflexivity].
Defined.

(* ================================================================== *)
(** * Device check, fallback configuration, exit status                 *)
(* ================================================================== *)

Module SetupFacts.

Lemma split_two_truthy sep s a b rest :
  Py.split sep s = a :: b :: rest -> Py.truthy s = true.
Proof. destruct s; [discriminate | reflexivity]. Qed.

Lemma device_of_line_spec line :
  (exists serial, device_of_line line = Some serial) <-> device_line line.
Proof.
  unfold device_of_line, device_line. split.
  - intros (serial & H).
    destruct (Py.truthy (Py.strip line)); [|discriminate].
    destruct (Py.startswith "*" (Py.strip line)); [discriminate|].
    cbn [andb negb] in H. split; [reflexivity|].
    destruct (Py.split Py.tab (Py.strip line)) as [|a [|b rest]];
      try discriminate.
    destruct (String.eqb b "device") eqn:E; [|discriminate].
    apply String.eqb_eq in E. exists a, b, rest. auto.
  - intros (Hstar & a & b & rest & Hsplit & ->).
    rewrite (split_two_truthy _ _ _ _ _ Hsplit), Hstar, Hsplit.
    cbn [andb negb]. rewrite String.eqb_refl. exists a. reflexivity.
Qed.

Lemma adb_devices_nonempty out :
  adb_devices out <> []
  <-> exists line,
        In line (tl (Py.split Py.newline (Py.strip out)))
        /\ device_line line.
Proof.
  unfold adb_devices.
  induction (tl (Py.split Py.newline (Py.strip out))) as [|l ls IH].
  - cbn. split; [congruence | intros (line & [] & _)].
  - cbn [flat_map]. split.
    + intro Hne. destruct (device_of_line l) as [d|] eqn:E.
      * exists l. split; [left; reflexivity|].
        apply device_of_line_spec. exists d. exact E.
      * cbn in Hne. apply IH in Hne. destruct Hne as (line & Hin & Hdev).
        exists line. split; [right; exact Hin | exact Hdev].
    + intros (line & [<-|Hin] & Hdev).
      * apply device_of_line_spec in Hdev. destruct Hdev as (d & ->).
        discriminate.
      * destruct (device_of_line l); [discriminate|].
        cbn. apply IH. exists line. auto.
Qed.

(** What [check_adb_devices] answers when the query completes. *)
Lemma check_adb_devices_completed out err w :
  fst (check_adb_devices (Completed out err) w)
  = Ret (match adb_devices out with [] => false | _ :: _ => true end).
Proof.
  unfold check_adb_devices, try_catch, subprocess_run, bind, print, emit, ret.
  cbn -[adb_devices Py.fstr Py.join].
  destruct (adb_devices out); reflexivity.
Qed.

Lemma for_each_returns {A} (f : A -> M unit) :
  (forall x w, exists w1, f x w = (Ret tt, w1)) ->
  forall l w, exists w1, for_each l f w = (Ret tt, w1).
Proof.
  intro Hf. induction l as [|x l IH]; intro w; [eexists; reflexivity|].
  cbn [for_each]. unfold bind.
  destruct (Hf x w) as (w1 & ->). apply IH.
Qed.

(** The run phase ends by a clean return, by [sys.exit(0)] from the signal
    handler, or by the exception of the daemon flag; otherwise it is still
    polling. *)
Lemma supervise_outcomes ts :
  forall w, run_phase_end (fst (supervise ts w)).
Proof.
  induction ts as [|t ts IH]; intro w;
    [right; right; right; reflexivity|].
  cbn [supervise]. unfold bind at 1.
  match goal with |- context [for_each (readers t) ?f w] =>
    assert (Hf : forall r w0, exists w1, f r w0 = (Ret tt, w1));
    [ intros r w0;
      destruct (read_stream_summary (reader_process r) (reader_stream r)
                  [reader_read r]) as (tr & raised & out & Hrun & _);
      unfold bind; rewrite Hrun; eexists; reflexivity
    | destruct (for_each_returns f Hf (readers t) w) as (w0 & ->); clear Hf ]
  end.
  clear w. rename w0 into w.
  unfold bind, get, modify, ret, emit.
  destruct (device_disconnected w); [left; reflexivity|].
  match goal with |- context [for_each ?procs ?f ?w0] =>
    assert (Hf : forall p w, exists w1, f p w = (Ret tt, w1))
      by (intros p w2; destruct (poll t p); eexists; reflexivity);
    destruct (for_each_returns f Hf procs w0) as (w1 & ->); clear Hf
  end.
  destruct (scrcpy_processes w1); [left; reflexivity|].
  destruct (signal t) as [e|]; [|apply IH].
  unfold signal_handler, bind.
  match goal with |- context [cleanup e ?w2] =>
    destruct (no_thread_alive e w2) eqn:Hdead;
    [rewrite (cleanup_run e w2 Hdead)
    | rewrite (cleanup_thread_alive e w2 Hdead)]
  end.
  - right. left. reflexivity.
  - right. right. left. reflexivity.
Qed.

End SetupFacts.

Import SetupFacts.

(* ================================================================== *)
(** * Where [sys.exit] is called, and with what                         *)
(* ================================================================== *)

Module ExitFacts.

Section Codes.
Context {P : Z -> Prop}.

Lemma exits_ret {A} (a : A) : exits_with P (ret a).
Proof. intros w c w' H. discriminate. Qed.

Lemma exits_print s : exits_with P (print s).
Proof. intros w c w' H. discriminate. Qed.

Lemma exits_emit x : exits_with P (emit x).
Proof. intros w c w' H. discriminate. Qed.

Lemma exits_get {A} (f : world -> A) : exits_with P (get f).
Proof. intros w c w' H. discriminate. Qed.

Lemma exits_modify f : exits_with P (modify f).
Proof. intros w c w' H. discriminate. Qed.

Lemma exits_raise {A} x : exits_with P (@raise A x).
Proof. intros w c w' H. discriminate. Qed.

Lemma exits_pending {A} : exits_with P (@pending A).
Proof. intros w c w' H. discriminate. Qed.

Lemma exits_sys_exit {A} c : P c -> exits_with P (@sys_exit A c).
Proof. intros Hc w c' w' H. inversion H; subst. exact Hc. Qed.

(** The continuation may use that its argument was returned by [m]. *)
Lemma exits_bind_from {A B} (m : M A) (k : A -> M B) :
  exits_with P m ->
  (forall a, (exists w w1, m w = (Ret a, w1)) -> exits_with P (k a)) ->
  exits_with P (bind m k).
Proof.
  intros Hm Hk w c w' H. unfold bind in H.
  destruct (m w) as [[a|x|c0|] w1] eqn:E; try discriminate.
  - eapply Hk; eauto.
  - inversion H; subst. eapply Hm; eauto.
Qed.

Lemma exits_bind {A B} (m : M A) (k : A -> M B) :
  exits_with P m -> (forall a, exits_with P (k a)) -> exits_with P (bind m k).
Proof. intros Hm Hk. apply exits_bind_from; auto. Qed.

Lemma exits_try_catch {A} (body : M A) handler :
  exits_with P body ->
  (forall x h, handler x = Some h -> exits_with P h) ->
  exits_with P (try_catch body handler).
Proof.
  intros Hb Hh w c w' H. unfold try_catch in H.
  destruct (body w) as [[a|x|c0|] w1] eqn:E; try discriminate.
  - destruct (handler x) as [h|] eqn:Ex; [|discriminate].
    eapply Hh; eauto.
  - inversion H; subst. eapply Hb; eauto.
Qed.

Lemma exits_try_except_Exception {A} (body : M A) handler :
  exits_with P body ->
  (forall x, exits_with P (handler x)) ->
  exits_with P (try_except_Exception body handler).
Proof.
  intros Hb Hh w c w' H. unfold try_except_Exception in H.
  destruct (body w) as [[a|x|c0|] w1] eqn:E; try discriminate.
  - destruct x; try discriminate; eapply Hh; eauto.
  - inversion H; subst. eapply Hb; eauto.
Qed.

Lemma exits_try_except_KeyboardInterrupt {A} (body handler : M A) :
  exits_with P body ->
  exits_with P handler ->
  exits_with P (try_except_KeyboardInterrupt body handler).
Proof.
  intros Hb Hh w c w' H. unfold try_except_KeyboardInterrupt in H.
  destruct (body w) as [[a|x|c0|] w1] eqn:E; try discriminate.
  - destruct x; try discriminate. eapply Hh; eauto.
  - inversion H; subst. eapply Hb; eauto.
Qed.

Lemma exits_for_each {A} (f : A -> M unit) l :
  (forall x, exits_with P (f x)) -> exits_with P (for_each l f).
Proof.
  intro Hf. induction l as [|x l IH]; cbn [for_each].
  - apply exits_ret.
  - apply exits_bind; auto.
Qed.

Lemma exits_loop_turns {A} (body : M (option A)) turns :
  exits_with P body -> exits_with P (loop_turns turns body).
Proof.
  intro Hb. induction turns as [|n IH]; cbn [loop_turns].
  - apply exits_pending.
  - apply exits_bind; [exact Hb|]. intros [a|]; [apply exits_ret | exact IH].
Qed.

Lemma exits_while_True {A} (body : M (option A)) :
  exits_with P body -> exits_with P (while_True body).
Proof.
  intro Hb. unfold while_True. apply exits_bind; [apply exits_get|].
  intro keys. apply exits_loop_turns, Hb.
Qed.

Lemma exits_map_or_ValueError {A B} (f : A -> option B) l :
  exits_with P (map_or_ValueError f l).
Proof.
  induction l as [|x l IH]; cbn [map_or_ValueError].
  - apply exits_ret.
  - destruct (f x); [|apply exits_raise].
    apply exits_bind; [exact IH|]. intro. apply exits_ret.
Qed.

(** [cleanup] never ends by [sys.exit]. *)
Lemma exits_cleanup e : exits_with P (cleanup e).
Proof.
  intros w c w' H. destruct (no_thread_alive e w) eqn:Hdead.
  - rewrite cleanup_run in H by exact Hdead. discriminate.
  - rewrite cleanup_thread_alive in H by exact Hdead. discriminate.
Qed.

Lemma exits_read_stream pn sn stream : exits_with P (read_stream pn sn stream).
Proof.
  intros w c w' H.
  destruct (read_stream_summary pn sn stream) as (tr & r & out & Hrun & _).
  rewrite Hrun in H. discriminate.
Qed.

End Codes.

Create HintDb exits.
#[export] Hint Resolve exits_ret exits_print exits_emit exits_get exits_modify
  exits_raise exits_pending exits_cleanup exits_read_stream
  exits_map_or_ValueError : exits.

(** One structural step of an exit-code argument. *)
Ltac exits_step :=
  cbv zeta;
  match goal with
  | |- exits_with _ (bind _ _) => apply exits_bind; [|intro]
  | |- exits_with _ (try_catch _ _) =>
      apply exits_try_catch;
      [|let x := fresh "x" in let h := fresh "h" in let Hh := fresh "Hh" in
        intros x h Hh; destruct x; inversion Hh; subst; clear Hh]
  | |- exits_with _ (try_except_Exception _ _) =>
      apply exits_try_except_Exception; [|intro]
  | |- exits_with _ (try_except_KeyboardInterrupt _ _) =>
      apply exits_try_except_KeyboardInterrupt
  | |- exits_with _ (for_each _ _) => apply exits_for_each; intro
  | |- exits_with _ (while_True _) => apply exits_while_True
  | |- exits_with _ (sys_exit _) => apply exits_sys_exit
  | |- exits_with _ (if ?b then _ else _) => destruct b
  | |- exits_with _ (match ?x with _ => _ end) => destruct x
  | |- exits_with _ _ => solve [auto with exits]
  end.

Ltac exits_auto := repeat exits_step.

Lemma exits_signal_handler {A} e :
  exits_with (fun c => c = 0%Z) (@signal_handler A e).
Proof. unfold signal_handler. exits_auto. reflexivity. Qed.

Lemma exits_input prompt : exits_with (fun c => c = 0%Z) (input prompt).
Proof.
  unfold input. exits_auto. apply exits_signal_handler.
Qed.

Lemma exits_cancelled {A} : exits_with (fun c => c = 0%Z) (@cancelled A).
Proof. unfold cancelled. exits_auto. reflexivity. Qed.

#[export] Hint Resolve exits_signal_handler exits_input exits_cancelled : exits.

Lemma exits_check_adb_devices P r : exits_with P (check_adb_devices r).
Proof. unfold check_adb_devices, subprocess_run. exits_auto. Qed.

Lemma exits_get_camera_info P parse q :
  exits_with P (get_camera_info parse q).
Proof. unfold get_camera_info, subprocess_run. exits_auto. Qed.

Lemma exits_load_v4l2loopback P l m : exits_with P (load_v4l2loopback l m).
Proof.
  unfold load_v4l2loopback, check_v4l2loopback, run_command, subprocess_run.
  exits_auto.
Qed.

Lemma exits_setup_virtual_mic P e : exits_with P (setup_virtual_mic e).
Proof. unfold setup_virtual_mic, subprocess_run. exits_auto. Qed.

Lemma exits_start_scrcpy_video P a b c r :
  exits_with P (start_scrcpy_video a b c r).
Proof. unfold start_scrcpy_video, spawn_monitored. exits_auto. Qed.

Lemma exits_start_scrcpy_audio P m r : exits_with P (start_scrcpy_audio m r).
Proof. unfold start_scrcpy_audio, spawn_monitored. exits_auto. Qed.

Lemma exits_select_camera py_int cams :
  exits_with (fun c => c = 0%Z) (select_camera py_int cams).
Proof. unfold select_camera. exits_auto. Qed.

Lemma exits_select_microphone_source :
  exits_with (fun c => c = 0%Z) select_microphone_source.
Proof. unfold select_microphone_source. exits_auto. Qed.

Lemma exits_supervise ts : exits_with (fun c => c = 0%Z) (supervise ts).
Proof.
  induction ts as [|t ts IH]; cbn [supervise]; exits_auto.
Qed.

Lemma exits_weaken {A} (P Q : Z -> Prop) (m : M A) :
  (forall c, P c -> Q c) -> exits_with P m -> exits_with Q m.
Proof. intros HPQ Hm w c w' H. apply HPQ. eapply Hm; eauto. Qed.

(** Lift a lemma about code zero to the codes of [main]. *)
Ltac exits_zero lemma :=
  eapply exits_weaken; [|apply lemma]; intros ? ?; left; assumption.

(** [main] calls [sys.exit] with 0, or with 1 after a setup failure; any
    other non-zero status of a run comes from an exception that escapes. *)
Lemma main_exit_codes py_int parse e :
  exits_with (main_exit_code parse e) (main py_int parse e).
Proof.
  unfold main.
  do 2 (apply exits_bind; [auto with exits | intros _]).
  apply exits_bind_from; [apply exits_check_adb_devices|].
  intros found (w0 & w1 & Hadb).
  apply exits_bind.
  { destruct found; cbn [negb]; exits_auto.
    right. split; [reflexivity|]. left.
    exists w0. rewrite Hadb. reflexivity. }
  intros _.
  apply exits_bind_from; [apply exits_get_camera_info|].
  intros info (w2 & w3 & Hinfo).
  apply exits_bind.
  { destruct info; exits_auto.
    right. split; [reflexivity|]. right. left.
    exists w2. rewrite Hinfo. reflexivity. }
  intro cams.
  apply exits_bind.
  { unfold camera_choice. destruct cams; [exits_auto|].
    exits_zero (exits_select_camera py_int). }
  intro choice. cbv zeta.
  apply exits_bind; [exits_zero exits_select_microphone_source|].
  intro mic_source.
  do 6 (apply exits_bind; [auto with exits | intros _]).
  apply exits_bind; [exits_zero exits_input|]. intros _.
  apply exits_bind_from; [apply exits_load_v4l2loopback|].
  intros loaded (w4 & w5 & Hload).
  apply exits_bind.
  { destruct loaded; cbn [negb]; exits_auto.
    right. split; [reflexivity|]. right. right. left.
    exists w4. rewrite Hload. reflexivity. }
  intros _.
  apply exits_bind_from; [apply exits_setup_virtual_mic|].
  intros mic_ok (w6 & w7 & Hmic).
  apply exits_bind.
  { destruct mic_ok; cbn [negb]; exits_auto.
    right. split; [reflexivity|]. do 3 right. left.
    exists w6. rewrite Hmic. reflexivity. }
  intros _.
  apply exits_bind_from; [apply exits_start_scrcpy_video|].
  intros video_proc (w8 & w9 & Hvideo).
  apply exits_bind.
  { destruct video_proc; exits_auto.
    right. split; [reflexivity|]. do 4 right. left.
    eexists _, _, _, w8. rewrite Hvideo. reflexivity. }
  intros _.
  apply exits_bind; [auto with exits | intros _].
  apply exits_bind_from; [apply exits_start_scrcpy_audio|].
  intros audio_proc (w10 & w11 & Haudio).
  apply exits_bind.
  { destruct audio_proc; exits_auto.
    right. split; [reflexivity|]. do 5 right.
    eexists _, w10. rewrite Haudio. reflexivity. }
  intros _.
  do 9 (apply exits_bind; [auto with exits | intros _]).
  apply exits_bind; [|intros _; auto with exits].
  apply exits_try_except_KeyboardInterrupt; [|auto with exits].
  exits_zero exits_supervise.
Qed.

End ExitFacts.


(** C9, as stated, fails in both directions on untrimmed lines: the
    listing whose device line ends in a blank makes [check_adb_devices]
    answer true, though no line after the header has a second field that is
    exactly "device". *)
Lemma padded_device_line_is_accepted :
  fst (check_adb_devices (Completed padded_listing EmptyString) (initial_world []))
  = Ret true
  /\ existsb raw_device_line (tl (Py.split Py.newline padded_listing)) = false
  /\ existsb raw_device_line
       (tl (Py.split Py.newline (Py.strip padded_listing))) = false.
Proof. repeat split. Qed.

(** C9, amended. For every output of the device-bridge query,
    [check_adb_devices] returns true if and only if some line after the
    first line of the whitespace-trimmed output, once trimmed of leading and
    trailing white space itself, does not start with ['*'] and splits on a
    tab into at least two fields whose second field is exactly "device";
    a device in any other state never makes it return true. *)
Theorem check_adb_devices_iff_device_line :
  forall out err w,
  exists found,
    fst (check_adb_devices (Completed out err) w) = Ret found
    /\ (found = true <->
        exists line,
          In line (tl (Py.split Py.newline (Py.strip out)))
          /\ device_line line).
Proof.
  intros out err w.
  exists (match adb_devices out with [] => false | _ :: _ => true end).
  split; [apply check_adb_devices_completed|].
  rewrite <- adb_devices_nonempty.
  destruct (adb_devices out); split; congruence.
Qed.

Lemma check_adb_devices_iff_device_line_witness :
  fst (check_adb_devices (Completed plain_listing EmptyString)
         (initial_world []))
  = Ret true.
Proof.
  destruct (check_adb_devices_iff_device_line plain_listing EmptyString
              (initial_world []))
    as (found & Hrun & Hiff).
  rewrite Hrun. f_equal. apply Hiff.
  exists (Py.fstr ["emulator-5554"; String Py.tab "device"]).
  split; [left; reflexivity|].
  split; [reflexivity|].
  exists "emulator-5554", "device", []. split; reflexivity.
Defined.

(** C10. When the parsed camera dictionary is empty, [select_camera]
    returns the fixed fallback configuration (camera id "0", resolution
    "1920x1080", the default FPS "60") having only printed a notice:
    standard input is not read and no prompt is written.  [main] takes the
    same configuration, in the same way, when no cameras are found. *)
Theorem empty_cameras_fall_back :
  forall py_int w,
    select_camera py_int [] w
    = (Ret fallback_choice, set_stdout (stdout w ++ ["[!] No cameras found"]) w)
    /\ camera_choice py_int [] w
       = (Ret fallback_choice,
          set_stdout (stdout w ++ ["[!] No cameras found on the device"]) w)
    /\ stdin (snd (select_camera py_int [] w)) = stdin w
    /\ stdin (snd (camera_choice py_int [] w)) = stdin w
    /\ fallback_choice = ("0", "1920x1080", DEFAULT_FPS).
Proof.
  intros py_int w. repeat split.
Qed.

(** C4 fails on the code by a slip in [cleanup].  In this run every setup
    step succeeds and the shutdown is triggered by a disconnection, yet the
    exit status is 1: the audio monitoring thread is still alive when
    [main] calls [cleanup], so setting its daemon flag raises RuntimeError
    and the exception escapes [main].  The teardown requests are sent only
    later, by the [atexit] hook.  With that thread finished the same run
    exits with status 0. *)
Theorem disconnect_shutdown_exits_nonzero :
  fst (program no_int no_cameras (disconnect_run early_env) quiet_env
         (initial_world two_returns))
  = Some 1%Z
  /\ fst (main no_int no_cameras (disconnect_run early_env)
            (initial_world two_returns))
     = Raise (RuntimeError "cannot set daemon status of active thread")
  /\ Py.mem "[!] Device disconnection detected - stopping..."
        (stdout (snd (main no_int no_cameras (disconnect_run early_env)
                        (initial_world two_returns))))
     = true
  /\ filter (fun x => match x with
                      | Popen _ | StartThread _ | Pkill | Terminate _ => true
                      | _ => false
                      end)
       (effects (snd (main no_int no_cameras (disconnect_run early_env)
                        (initial_world two_returns))))
     = [ Popen ["scrcpy"; "--video-source=camera"; "--camera-id=0";
                "--no-audio"; "--v4l2-sink=/dev/video0";
                "--camera-size=1920x1080"; "--camera-fps=60";
                "--port"; "27183"; "--no-window"];
         StartThread 1;
         Popen ["scrcpy"; "--no-video"; "--no-playback";
                "--audio-source=mic-camcorder"; "--audio-codec=raw";
                "--no-window"; "--record=/tmp/adbcam_pipe";
                "--port"; "27184"; "--record-format=wav"];
         StartThread 2 ]
  /\ fst (program no_int no_cameras (disconnect_run quiet_env) quiet_env
            (initial_world two_returns))
     = Some 0%Z.
Proof. vm_compute. repeat split. Qed.

(** Every way out of a run passes through [cleanup] twice: here the end of
    [main] and then the [atexit] hook, each with its own pattern-kill. *)
Example clean_shutdown_tears_down_twice :
  fst (program no_int no_cameras (disconnect_run quiet_env) quiet_env
         (initial_world two_returns))
  = Some 0%Z
  /\ filter is_pkill
       (effects (snd (program no_int no_cameras (disconnect_run quiet_env)
                        quiet_env (initial_world two_returns))))
     = [Pkill; Pkill].
Proof. vm_compute. split; reflexivity. Qed.

(** An operator interrupt during the run phase: the signal handler tears
    down and exits with status 0, and the [atexit] hook tears down again. *)
Example interrupt_tears_down_twice :
  fst (program no_int no_cameras interrupt_run quiet_env
         (initial_world two_returns))
  = Some 0%Z
  /\ filter is_pkill
       (effects (snd (program no_int no_cameras interrupt_run quiet_env
                        (initial_world two_returns))))
     = [Pkill; Pkill].
Proof. vm_compute. split; reflexivity. Qed.

(** End of input at the confirmation prompt: [EOFError] escapes [main]. *)
Example end_of_input_exits_nonzero :
  fst (program no_int no_cameras (disconnect_run quiet_env) quiet_env
         (initial_world [Typed EmptyString]))
  = Some 1%Z.
Proof. reflexivity. Qed.
